(** * The GitHub facade of chat-with-code ([src/tools/github.ts])

    A shallow embedding of the class [GitHubTool] (the third, widest
    definition of the file, lines 557-944) together with the properties
    its specification states.

    The class holds one Octokit client and calls the platform's [fetch];
    every method is [async] and awaits one call after the other, so a call
    of the facade is a sequential computation over the remote.  It is
    modelled as a function from the requests issued so far to the requests
    issued afterwards and an outcome: a returned value, a thrown error, or
    recursion that ran out of fuel. *)

From Stdlib Require Import List String Ascii ZArith Bool Lia.
Import ListNotations.

Local Open Scope string_scope.
Local Open Scope list_scope.

(** ** JavaScript values the code relies on *)

(** A double quote character, for the template literals that embed one. *)
Definition dquote : string := String (ascii_of_nat 34) EmptyString.

(** [s || d] on an optional string: the fallback is taken when the left
    operand is [undefined] or the empty string. *)
Definition or_string (o : option string) (d : string) : string :=
  match o with
  | Some s => if (s =? "")%string then d else s
  | None => d
  end.

(** [n || d] on an optional number: the fallback is taken when the left
    operand is [undefined] or [0]. *)
Definition or_number (o : option Z) (d : Z) : Z :=
  match o with
  | Some n => if (n =? 0)%Z then d else n
  | None => d
  end.

(** Truthiness of an optional string, as tested by [if (owner)]. *)
Definition truthy (o : option string) : bool :=
  match o with
  | Some s => negb (s =? "")%string
  | None => false
  end.

(** The string a truthy optional string holds. *)
Definition str (o : option string) : string :=
  match o with
  | Some s => s
  | None => "undefined"
  end.

(** ** Data model (the exported interfaces) *)

Record Repository := mkRepository {
  repo_id : Z;
  repo_name : string;
  repo_full_name : string;
  repo_description : option string;
  repo_private : bool;
  repo_html_url : string;
  repo_clone_url : string;
  repo_default_branch : string;
  repo_language : option string;
  repo_stargazers_count : Z;
  repo_forks_count : Z;
  repo_size : Z;
  repo_created_at : string;
  repo_updated_at : string
}.

Record FileContent := mkFileContent {
  fc_name : string;
  fc_path : string;
  fc_content : string;
  fc_encoding : string;
  fc_size : Z;
  fc_sha : string
}.

(** The [type] of a directory entry. *)
Inductive EntryType := file | dir | symlink | submodule.

Definition EntryType_eqb (a b : EntryType) : bool :=
  match a, b with
  | file, file | dir, dir | symlink, symlink | submodule, submodule => true
  | _, _ => false
  end.

Record DirectoryContent := mkDirectoryContent {
  dc_name : string;
  dc_path : string;
  dc_type : EntryType;
  dc_size : option Z;
  dc_sha : string;
  dc_url : string;
  dc_html_url : option string;
  dc_download_url : option string
}.

Inductive SortKey := updated | stars | forks.
Inductive SortOrder := asc | desc.

Record SearchOptions := mkSearchOptions {
  so_per_page : option Z;
  so_page : option Z;
  so_sort : option SortKey;
  so_order : option SortOrder
}.

(** The options of [getFileHistory]. *)
Record PageOptions := mkPageOptions {
  po_per_page : option Z;
  po_page : option Z
}.

Record RepositorySummary := mkRepositorySummary {
  rs_id : Z;
  rs_name : string;
  rs_full_name : string;
  rs_html_url : string
}.

Record CodeSearchResult := mkCodeSearchResult {
  cs_name : string;
  cs_path : string;
  cs_sha : string;
  cs_url : string;
  cs_html_url : string;
  cs_repository : RepositorySummary;
  cs_score : Z
}.

Record Signature := mkSignature {
  sig_name : string;
  sig_email : string;
  sig_date : string
}.

Record Commit := mkCommit {
  commit_sha : string;
  commit_message : string;
  commit_author : Signature;
  commit_committer : Signature;
  commit_url : string;
  commit_html_url : string
}.

Inductive ArchiveFormat := tarball | zipball.

Record RepositoryArchive := mkRepositoryArchive {
  downloadUrl : string;
  filename : string;
  archive_ref : string;
  format : ArchiveFormat
}.

(** [GitHubError extends Error]: an error with an optional [status] and an
    optional [response.data.message].  [response_message] is the value of
    [error.response?.data?.message], [None] when any link of the chain is
    undefined. *)
Record GitHubError := mkGitHubError {
  status : option Z;
  response_message : option string;
  message : string
}.

(** [new Error(msg)]: neither status nor response. *)
Definition Error (msg : string) : GitHubError :=
  mkGitHubError None None msg.

(** ** What the remote sends *)

(** The payload of [repos.getContent] for one object: the fields the code
    reads.  [content] and [encoding] are read for a file only. *)
Record ContentData := mkContentData {
  cd_name : string;
  cd_path : string;
  cd_type : EntryType;
  cd_content : string;
  cd_encoding : string;
  cd_size : Z;
  cd_sha : string
}.

(** [repos.getContent] answers with one object or with an array. *)
Inductive ContentResponse :=
| Single (data : ContentData)
| Listing (data : list DirectoryContent).

(** The optional author and committer of a listed commit. *)
Record RawSignature := mkRawSignature {
  raw_name : option string;
  raw_email : option string;
  raw_date : option string
}.

Record RawCommit := mkRawCommit {
  raw_sha : string;
  raw_message : string;
  raw_author : option RawSignature;
  raw_committer : option RawSignature;
  raw_url : string;
  raw_html_url : string
}.

(** The response of [fetch]: its [ok] flag, its status text and the bytes
    [arrayBuffer()] delivers. *)
Record FetchResponse := mkFetchResponse {
  ok : bool;
  statusText : string;
  arrayBuffer : list Byte.byte
}.

(** ** Requests *)

(** A request the facade sends, with the parameters it sends. *)
Inductive Request :=
| repos_get (owner repo : string)
| repos_getContent (owner repo path : string) (ref : option string)
| search_repos (q : string) (per_page page : Z)
    (sort : option SortKey) (order : option SortOrder)
| search_code (q : string) (per_page : Z)
| repos_downloadArchive (owner repo : string)
    (archive_format : ArchiveFormat) (ref : string)
| repos_listCommits (owner repo path : string) (per_page page : Z)
| repos_getCommit (owner repo ref : string) (mediaType_format : string)
| repos_compareCommits (owner repo base head : string)
    (mediaType_format : string)
| fetch (url : string).

(** The requests sent so far, oldest first. *)
Definition History := list Request.

(** Whether a request is a plain retrieval of a location. *)
Definition is_fetch (r : Request) : bool :=
  match r with
  | fetch _ => true
  | _ => false
  end.

(** The remote: for each kind of request, what it answers to a request
    sent after the history [h], a thrown error or a payload.  The answer
    may depend on the history, so a remote that changes between two
    requests is covered.  An error of [fetch_] is a failure of the network
    (of the retrieval or of reading its body). *)
Record Remote := mkRemote {
  get_ : History -> string -> string -> GitHubError + Repository;
  getContent_ : History -> string -> string -> string -> option string ->
                GitHubError + ContentResponse;
  searchRepos_ : History -> string -> Z -> Z -> option SortKey ->
                 option SortOrder -> GitHubError + list Repository;
  searchCode_ : History -> string -> Z -> GitHubError + list CodeSearchResult;
  downloadArchive_ : History -> string -> string -> ArchiveFormat -> string ->
                     GitHubError + string;
  listCommits_ : History -> string -> string -> string -> Z -> Z ->
                 GitHubError + list RawCommit;
  getCommit_ : History -> string -> string -> string -> string ->
               GitHubError + string;
  compareCommits_ : History -> string -> string -> string -> string ->
                    string -> GitHubError + string;
  fetch_ : History -> string -> GitHubError + FetchResponse
}.

(** ** Computations *)

Inductive Outcome (A : Type) :=
| Returned (a : A)
| Thrown (e : GitHubError)
| Diverged.

Arguments Returned {A} a.
Arguments Thrown {A} e.
Arguments Diverged {A}.

Definition M (A : Type) : Type := History -> History * Outcome A.

Definition ret {A} (a : A) : M A := fun h => (h, Returned a).

Definition throw {A} (e : GitHubError) : M A := fun h => (h, Thrown e).

Definition diverge {A} : M A := fun h => (h, Diverged).

Definition bind {A B} (m : M A) (k : A -> M B) : M B :=
  fun h =>
    match m h with
    | (h', Returned a) => k a h'
    | (h', Thrown e) => (h', Thrown e)
    | (h', Diverged) => (h', Diverged)
    end.

(** [try { body } catch (error) { throw handler(error) }] *)
Definition try_catch {A} (body : M A)
    (handler : GitHubError -> GitHubError) : M A :=
  fun h =>
    match body h with
    | (h', Thrown e) => (h', Thrown (handler e))
    | r => r
    end.

(** One awaited request: it is recorded, and the remote's answer to it is
    returned or thrown. *)
Definition await {A} (r : Request) (answer : History -> GitHubError + A)
    : M A :=
  fun h =>
    (h ++ [r],
     match answer h with
     | inl e => Thrown e
     | inr a => Returned a
     end).

Declare Scope facade_scope.
Delimit Scope facade_scope with facade.
Notation "x <- m ;; k" := (bind m (fun x => k))
  (at level 61, m at next level, right associativity) : facade_scope.
Local Open Scope facade_scope.

(** The default [path = ''] of the two directory methods. *)
Definition path_or_root (path : option string) : string :=
  match path with
  | Some p => p
  | None => ""
  end.

(** ** The facade *)

(** [handleError] (lines 919-943). *)
Definition status_is (error : GitHubError) (n : Z) : bool :=
  match status error with
  | Some s => (s =? n)%Z
  | None => false
  end.

Definition handleError (error : GitHubError) : GitHubError :=
  if status_is error 404 then
    Error ("Resource not found: "
           ++ or_string (response_message error) "Not found")
  else if status_is error 401 then
    Error "Authentication failed. Check your GitHub token."
  else if status_is error 403 then
    Error ("Access forbidden: "
           ++ or_string (response_message error) "Forbidden")
  else if status_is error 422 then
    Error ("Invalid request: "
           ++ or_string (response_message error) "Unprocessable entity")
  else
    Error ("GitHub API error: " ++ message error).

Section Facade.

(** What the configured client [this.octokit] and [fetch] reach. *)
Variable remote : Remote.

(** [Buffer.from(s, 'base64').toString('utf-8')], the platform's decoder. *)
Variable base64_to_utf8 : string -> string.

(** [getRepository] (lines 572-598). *)
Definition getRepository (owner repo : string) : M Repository :=
  try_catch
    (data <- await (repos_get owner repo) (fun h => get_ remote h owner repo) ;;
     ret {| repo_id := repo_id data;
            repo_name := repo_name data;
            repo_full_name := repo_full_name data;
            repo_description := repo_description data;
            repo_private := repo_private data;
            repo_html_url := repo_html_url data;
            repo_clone_url := repo_clone_url data;
            repo_default_branch := repo_default_branch data;
            repo_language := repo_language data;
            repo_stargazers_count := repo_stargazers_count data;
            repo_forks_count := repo_forks_count data;
            repo_size := repo_size data;
            repo_created_at := repo_created_at data;
            repo_updated_at := repo_updated_at data |})
    handleError.

(** [getFileContent] (lines 600-638). *)
Definition getFileContent (owner repo path : string) (ref : option string)
    : M FileContent :=
  try_catch
    (data <- await (repos_getContent owner repo path ref)
               (fun h => getContent_ remote h owner repo path ref) ;;
     match data with
     | Listing _ =>
         throw (Error ("Path " ++ dquote ++ path ++ dquote
                       ++ " is a directory, not a file"))
     | Single data =>
         if negb (EntryType_eqb (cd_type data) file) then
           throw (Error ("Path " ++ dquote ++ path ++ dquote
                         ++ " is not a file"))
         else
           let content :=
             if (cd_encoding data =? "base64")%string
             then base64_to_utf8 (cd_content data)
             else cd_content data in
           ret {| fc_name := cd_name data;
                  fc_path := cd_path data;
                  fc_content := content;
                  fc_encoding := cd_encoding data;
                  fc_size := cd_size data;
                  fc_sha := cd_sha data |}
     end)
    handleError.

(** [downloadFile] (lines 640-647). *)
Definition downloadFile (owner repo path : string) (ref : option string)
    : M FileContent :=
  getFileContent owner repo path ref.

(** [getRepositoryContents] (lines 649-680); [path] defaults to the empty
    string. *)
Definition getRepositoryContents (owner repo : string) (path : option string)
    (ref : option string) : M (list DirectoryContent) :=
  let path := path_or_root path in
  try_catch
    (data <- await (repos_getContent owner repo path ref)
               (fun h => getContent_ remote h owner repo path ref) ;;
     match data with
     | Single _ =>
         throw (Error ("Path " ++ dquote ++ path ++ dquote
                       ++ " is a file, not a directory"))
     | Listing data =>
         ret (map (fun item =>
                     {| dc_name := dc_name item;
                        dc_path := dc_path item;
                        dc_type := dc_type item;
                        dc_size := dc_size item;
                        dc_sha := dc_sha item;
                        dc_url := dc_url item;
                        dc_html_url := dc_html_url item;
                        dc_download_url := dc_download_url item |}) data)
     end)
    handleError.

(** The body of the loop of [downloadDirectory] (lines 692-710): [files]
    is the array built so far, [recurse] the recursive call. *)
Fixpoint downloadItems (recurse : string -> M (list FileContent))
    (owner repo : string) (ref : option string)
    (contents : list DirectoryContent) (files : list FileContent)
    : M (list FileContent) :=
  match contents with
  | [] => ret files
  | item :: rest =>
      match dc_type item with
      | file =>
          fileContent <- downloadFile owner repo (dc_path item) ref ;;
          downloadItems recurse owner repo ref rest (files ++ [fileContent])
      | dir =>
          dirFiles <- recurse (dc_path item) ;;
          downloadItems recurse owner repo ref rest (files ++ dirFiles)
      | _ => downloadItems recurse owner repo ref rest files
      end
  end.

(** [downloadDirectory] (lines 682-716); [path] defaults to the empty
    string.  The recursion of the source is bounded by the remote's tree
    only; [fuel] bounds its depth here, and a call that needs more ends
    [Diverged]. *)
Fixpoint downloadDirectory (fuel : nat) (owner repo : string)
    (path : option string) (ref : option string) : M (list FileContent) :=
  match fuel with
  | O => diverge
  | S fuel =>
      let path := path_or_root path in
      try_catch
        (contents <- getRepositoryContents owner repo (Some path) ref ;;
         downloadItems
           (fun p => downloadDirectory fuel owner repo (Some p) ref)
           owner repo ref contents [])
        handleError
  end.

(** [searchRepositories] (lines 718-750); [options] defaults to the empty
    object. *)
Definition searchRepositories (query : string) (options : option SearchOptions)
    : M (list Repository) :=
  let options :=
    match options with
    | Some o => o
    | None => mkSearchOptions None None None None
    end in
  try_catch
    (let per_page := or_number (so_per_page options) 30 in
     let page := or_number (so_page options) 1 in
     items <- await (search_repos query per_page page
                       (so_sort options) (so_order options))
                (fun h => searchRepos_ remote h query per_page page
                            (so_sort options) (so_order options)) ;;
     ret (map (fun item =>
                 {| repo_id := repo_id item;
                    repo_name := repo_name item;
                    repo_full_name := repo_full_name item;
                    repo_description := repo_description item;
                    repo_private := repo_private item;
                    repo_html_url := repo_html_url item;
                    repo_clone_url := repo_clone_url item;
                    repo_default_branch := repo_default_branch item;
                    repo_language := repo_language item;
                    repo_stargazers_count := repo_stargazers_count item;
                    repo_forks_count := repo_forks_count item;
                    repo_size := repo_size item;
                    repo_created_at := repo_created_at item;
                    repo_updated_at := repo_updated_at item |}) items))
    handleError.

(** The query [searchCode] builds (lines 758-763). *)
Definition searchQuery (query : string) (owner repo : option string)
    : string :=
  if truthy owner && truthy repo then
    (query ++ " repo:" ++ str owner ++ "/" ++ str repo)%string
  else if truthy owner then
    (query ++ " user:" ++ str owner)%string
  else
    query.

(** [searchCode] (lines 752-787). *)
Definition searchCode (query : string) (owner repo : option string)
    : M (list CodeSearchResult) :=
  try_catch
    (let q := searchQuery query owner repo in
     items <- await (search_code q 30)
                (fun h => searchCode_ remote h q 30) ;;
     ret (map (fun item =>
                 {| cs_name := cs_name item;
                    cs_path := cs_path item;
                    cs_sha := cs_sha item;
                    cs_url := cs_url item;
                    cs_html_url := cs_html_url item;
                    cs_repository :=
                      {| rs_id := rs_id (cs_repository item);
                         rs_name := rs_name (cs_repository item);
                         rs_full_name := rs_full_name (cs_repository item);
                         rs_html_url := rs_html_url (cs_repository item) |};
                    cs_score := cs_score item |}) items))
    handleError.

(** The default of the [format] parameter of the two archive methods. *)
Definition format_or_default (format : option ArchiveFormat) : ArchiveFormat :=
  match format with
  | Some f => f
  | None => zipball
  end.

(** [getRepositoryArchive] (lines 789-815). *)
Definition getRepositoryArchive (owner repo : string)
    (format : option ArchiveFormat) (ref : option string)
    : M RepositoryArchive :=
  let format := format_or_default format in
  try_catch
    (url <- await (repos_downloadArchive owner repo format
                     (or_string ref "HEAD"))
              (fun h => downloadArchive_ remote h owner repo format
                          (or_string ref "HEAD")) ;;
     let downloadUrl := url in
     let filename :=
       (repo ++ "-" ++ or_string ref "HEAD" ++ "."
        ++ match format with zipball => "zip" | tarball => "tar.gz" end)%string
     in
     ret {| downloadUrl := downloadUrl;
            filename := filename;
            archive_ref := or_string ref "HEAD";
            format := format |})
    handleError.

(** [downloadRepositoryArchive] (lines 817-837). *)
Definition downloadRepositoryArchive (owner repo : string)
    (format : option ArchiveFormat) (ref : option string)
    : M (list Byte.byte) :=
  let format := format_or_default format in
  try_catch
    (archive <- getRepositoryArchive owner repo (Some format) ref ;;
     response <- await (fetch (downloadUrl archive))
                   (fun h => fetch_ remote h (downloadUrl archive)) ;;
     if negb (ok response) then
       throw (Error ("Failed to download archive: " ++ statusText response))
     else
       ret (arrayBuffer response))
    handleError.

(** [commit.commit.author?.name || ''] and its like. *)
Definition signature_of (raw : option RawSignature) : Signature :=
  let field (get : RawSignature -> option string) :=
    or_string (match raw with Some r => get r | None => None end) "" in
  {| sig_name := field raw_name;
     sig_email := field raw_email;
     sig_date := field raw_date |}.

(** [getFileHistory] (lines 839-873); [options] defaults to the empty
    object. *)
Definition getFileHistory (owner repo path : string)
    (options : option PageOptions) : M (list Commit) :=
  let options :=
    match options with
    | Some o => o
    | None => mkPageOptions None None
    end in
  try_catch
    (let per_page := or_number (po_per_page options) 30 in
     let page := or_number (po_page options) 1 in
     data <- await (repos_listCommits owner repo path per_page page)
               (fun h => listCommits_ remote h owner repo path per_page page) ;;
     ret (map (fun commit =>
                 {| commit_sha := raw_sha commit;
                    commit_message := raw_message commit;
                    commit_author := signature_of (raw_author commit);
                    commit_committer := signature_of (raw_committer commit);
                    commit_url := raw_url commit;
                    commit_html_url := raw_html_url commit |}) data))
    handleError.

(** [getCommitDiff] (lines 875-894). *)
Definition getCommitDiff (owner repo ref : string) : M string :=
  try_catch
    (data <- await (repos_getCommit owner repo ref "diff")
               (fun h => getCommit_ remote h owner repo ref "diff") ;;
     ret data)
    handleError.

(** [compareCommits] (lines 896-917). *)
Definition compareCommits (owner repo base head : string) : M string :=
  try_catch
    (data <- await (repos_compareCommits owner repo base head "diff")
               (fun h => compareCommits_ remote h owner repo base head "diff") ;;
     ret data)
    handleError.

End Facade.

Local Set Warnings "-register-all".

(** ** Directory trees *)

(** A tree as the remote holds it below a directory: each node carries
    the entry its parent's listing shows; a file carries what the remote
    sends when it is fetched. *)
Inductive Tree :=
| File (item : DirectoryContent) (data : ContentData)
| Dir (item : DirectoryContent) (children : list Tree)
| Other (item : DirectoryContent).

Definition entry (t : Tree) : DirectoryContent :=
  match t with
  | File item _ | Dir item _ | Other item => item
  end.

(** The files of a tree, depth first and in the order of the listings. *)
Fixpoint leaves (t : Tree) : list ContentData :=
  match t with
  | File _ data => [data]
  | Dir _ children => flat_map leaves children
  | Other _ => []
  end.

(** The number of files of a tree. *)
Fixpoint file_count (t : Tree) : nat :=
  match t with
  | File _ _ => 1
  | Dir _ children => list_sum (map file_count children)
  | Other _ => 0
  end.

(** The number of nested listings below a node. *)
Fixpoint height (t : Tree) : nat :=
  match t with
  | Dir _ children => S (list_max (map height children))
  | _ => 0
  end.

(** The requests a walk of a tree sends, in order. *)
Fixpoint requests (owner repo : string) (ref : option string) (t : Tree)
    : list Request :=
  match t with
  | File item _ => [repos_getContent owner repo (dc_path item) ref]
  | Dir item children =>
      repos_getContent owner repo (dc_path item) ref
      :: flat_map (requests owner repo ref) children
  | Other _ => []
  end.

(** What [getFileContent] makes of a fetched file. *)
Definition fileContent_of (base64_to_utf8 : string -> string)
    (data : ContentData) : FileContent :=
  {| fc_name := cd_name data;
     fc_path := cd_path data;
     fc_content :=
       if (cd_encoding data =? "base64")%string
       then base64_to_utf8 (cd_content data)
       else cd_content data;
     fc_encoding := cd_encoding data;
     fc_size := cd_size data;
     fc_sha := cd_sha data |}.

Section Serving.

Variable remote : Remote.
Variables owner repo : string.
Variable ref : option string.

(** The remote holds the tree [t]: at every moment it lists a directory
    node as the entries of its children and sends a file node's data. *)
Inductive serves : Tree -> Prop :=
| serves_file item data :
    dc_type item = file ->
    (forall h, getContent_ remote h owner repo (dc_path item) ref
               = inr (Single data)) ->
    cd_type data = file ->
    serves (File item data)
| serves_dir item children :
    dc_type item = dir ->
    (forall h, getContent_ remote h owner repo (dc_path item) ref
               = inr (Listing (map entry children))) ->
    Forall serves children ->
    serves (Dir item children)
| serves_other item :
    dc_type item <> file ->
    dc_type item <> dir ->
    serves (Other item).

(** The remote holds the trees [children] in the directory [path]. *)
Definition serves_at (path : string) (children : list Tree) : Prop :=
  (forall h, getContent_ remote h owner repo path ref
             = inr (Listing (map entry children)))
  /\ Forall serves children.

Variable base64_to_utf8 : string -> string.

(** A call nested in [downloadDirectory (S fuel) owner repo path ref],
    started after [h], fails after [h'] with [e]: the listing of [path],
    or, the listing and the entries before [item] done, the fetch of the
    file [item] or the walk of the directory [item]. *)
Inductive fails_inside (fuel : nat) (path : option string) (h : History)
    : History -> GitHubError -> Prop :=
| listing_fails h' e :
    getRepositoryContents remote owner repo (Some (path_or_root path)) ref h = (h', Thrown e) ->
    fails_inside fuel path h h' e
| file_fails h1 contents before item after h2 files h' e :
    getRepositoryContents remote owner repo (Some (path_or_root path)) ref h
    = (h1, Returned contents) ->
    contents = before ++ item :: after ->
    downloadItems remote base64_to_utf8
      (fun p => downloadDirectory remote base64_to_utf8 fuel owner repo
                  (Some p) ref)
      owner repo ref before [] h1 = (h2, Returned files) ->
    dc_type item = file ->
    downloadFile remote base64_to_utf8 owner repo (dc_path item) ref h2
    = (h', Thrown e) ->
    fails_inside fuel path h h' e
| directory_fails h1 contents before item after h2 files h' e :
    getRepositoryContents remote owner repo (Some (path_or_root path)) ref h
    = (h1, Returned contents) ->
    contents = before ++ item :: after ->
    downloadItems remote base64_to_utf8
      (fun p => downloadDirectory remote base64_to_utf8 fuel owner repo
                  (Some p) ref)
      owner repo ref before [] h1 = (h2, Returned files) ->
    dc_type item = dir ->
    downloadDirectory remote base64_to_utf8 fuel owner repo
      (Some (dc_path item)) ref h2 = (h', Thrown e) ->
    fails_inside fuel path h h' e.

End Serving.

(** ** A decoder and a remote to run the facade on *)

(** Base64 over the standard alphabet: characters outside the alphabet are
    skipped, the padding ends the input, every four sextets give three
    bytes and a last group of two or three gives one or two.  This is the
    decoder the examples below are run with. *)
Module Base64.

Definition sextet (c : ascii) : option N :=
  let n := N_of_ascii c in
  if (65 <=? n)%N && (n <=? 90)%N then Some (n - 65)%N
  else if (97 <=? n)%N && (n <=? 122)%N then Some (n - 71)%N
  else if (48 <=? n)%N && (n <=? 57)%N then Some (n + 4)%N
  else if (n =? 43)%N then Some 62%N
  else if (n =? 47)%N then Some 63%N
  else None.

Fixpoint sextets (s : string) : list N :=
  match s with
  | EmptyString => []
  | String c s' =>
      if (N_of_ascii c =? 61)%N then []
      else match sextet c with
           | Some n => n :: sextets s'
           | None => sextets s'
           end
  end.

Fixpoint bytes (l : list N) : list N :=
  match l with
  | a :: b :: c :: d :: l' =>
      (a * 4 + b / 16)%N
      :: ((b mod 16) * 16 + c / 4)%N
      :: ((c mod 4) * 64 + d)%N
      :: bytes l'
  | [a; b; c] => [(a * 4 + b / 16)%N; ((b mod 16) * 16 + c / 4)%N]
  | [a; b] => [(a * 4 + b / 16)%N]
  | _ => []
  end.

Definition decode (s : string) : string :=
  string_of_list_ascii (map ascii_of_N (bytes (sextets s))).

End Base64.

Module Demo.

Definition item (name path : string) (type : EntryType) : DirectoryContent :=
  {| dc_name := name;
     dc_path := path;
     dc_type := type;
     dc_size := Some 5%Z;
     dc_sha := "3b18e512";
     dc_url := "https://api.github.test/contents/" ++ path;
     dc_html_url := None;
     dc_download_url := None |}.

Definition data (name path content encoding : string) : ContentData :=
  {| cd_name := name;
     cd_path := path;
     cd_type := file;
     cd_content := content;
     cd_encoding := encoding;
     cd_size := 5%Z;
     cd_sha := "3b18e512" |}.

Definition readme := data "README.md" "README.md" "aGVsbG8=" "base64".
Definition main := data "main.ts" "src/main.ts" "export {}" "none".
Definition util := data "util.ts" "src/lib/util.ts" "d29ybGQ=" "base64".

(** What the remote sends for the symbolic link. *)
Definition latest : ContentData :=
  {| cd_name := "latest";
     cd_path := "latest";
     cd_type := symlink;
     cd_content := "";
     cd_encoding := "";
     cd_size := 3%Z;
     cd_sha := "3b18e512" |}.

(** The root of the repository: a file, a directory holding a file and a
    directory with one more file, a symbolic link and a submodule. *)
Definition root : list Tree :=
  [ File (item "README.md" "README.md" file) readme;
    Dir (item "src" "src" dir)
      [ File (item "main.ts" "src/main.ts" file) main;
        Dir (item "lib" "src/lib" dir)
          [ File (item "util.ts" "src/lib/util.ts" file) util ] ];
    Other (item "latest" "latest" symlink);
    Other (item "vendor" "vendor" submodule) ].

(** A second directory, [docs], lists a file the remote then fails to
    send, and a directory [pkg] holds [docs]'s like one level down. *)
Definition contents : list (string * ContentResponse) :=
  [ ("", Listing (map entry root));
    ("README.md", Single readme);
    ("src", Listing [item "main.ts" "src/main.ts" file;
                     item "lib" "src/lib" dir]);
    ("src/main.ts", Single main);
    ("src/lib", Listing [item "util.ts" "src/lib/util.ts" file]);
    ("src/lib/util.ts", Single util);
    ("latest", Single latest);
    ("docs", Listing [item "intro.md" "README.md" file;
                      item "guide.md" "docs/guide.md" file;
                      item "api.md" "docs/api.md" file]);
    ("pkg", Listing [item "docs" "docs" dir]) ].

Definition not_found : GitHubError :=
  {| status := Some 404%Z;
     response_message := Some "Not Found";
     message := "Not Found" |}.

Fixpoint lookup (path : string) (l : list (string * ContentResponse))
    : GitHubError + ContentResponse :=
  match l with
  | [] => inl not_found
  | (p, r) :: l' => if (p =? path)%string then inr r else lookup path l'
  end.

Definition zip_url : string := "https://codeload.github.test/zip".
Definition tar_url : string := "https://codeload.github.test/tar".

Definition remote : Remote :=
  {| get_ := fun _ _ _ => inl not_found;
     getContent_ := fun _ _ _ path _ => lookup path contents;
     searchRepos_ := fun _ _ _ _ _ _ => inr [];
     searchCode_ := fun _ _ _ => inr [];
     downloadArchive_ := fun _ _ _ format _ =>
       inr match format with zipball => zip_url | tarball => tar_url end;
     listCommits_ := fun _ _ _ _ _ _ => inr [];
     getCommit_ := fun _ _ _ _ _ => inr "diff --git";
     compareCommits_ := fun _ _ _ _ _ _ => inr "diff --git";
     fetch_ := fun _ url =>
       inr (if (url =? zip_url)%string
            then {| ok := true; statusText := "OK";
                    arrayBuffer := [Byte.x50; Byte.x4b] |}
            else {| ok := false; statusText := "Not Found";
                    arrayBuffer := [] |}) |}.

(** A remote that fails every request with [e]. *)
Definition failing (e : GitHubError) : Remote :=
  {| get_ := fun _ _ _ => inl e;
     getContent_ := fun _ _ _ _ _ => inl e;
     searchRepos_ := fun _ _ _ _ _ _ => inl e;
     searchCode_ := fun _ _ _ => inl e;
     downloadArchive_ := fun _ _ _ _ _ => inl e;
     listCommits_ := fun _ _ _ _ _ _ => inl e;
     getCommit_ := fun _ _ _ _ _ => inl e;
     compareCommits_ := fun _ _ _ _ _ _ => inl e;
     fetch_ := fun _ _ => inl e |}.

(** A remote that resolves archives and whose network then fails. *)
Definition offline : Remote :=
  {| get_ := get_ remote;
     getContent_ := getContent_ remote;
     searchRepos_ := searchRepos_ remote;
     searchCode_ := searchCode_ remote;
     downloadArchive_ := downloadArchive_ remote;
     listCommits_ := listCommits_ remote;
     getCommit_ := getCommit_ remote;
     compareCommits_ := compareCommits_ remote;
     fetch_ := fun _ _ => inl (Error "fetch failed") |}.

Definition unauthorized : GitHubError :=
  {| status := Some 401%Z;
     response_message := Some "Bad credentials";
     message := "Bad credentials" |}.

Definition forbidden : GitHubError :=
  {| status := Some 403%Z;
     response_message := Some "API rate limit exceeded";
     message := "API rate limit exceeded" |}.

Definition unprocessable : GitHubError :=
  {| status := Some 422%Z;
     response_message := None;
     message := "Validation Failed" |}.

Definition server_error : GitHubError :=
  {| status := Some 500%Z;
     response_message := Some "Server Error";
     message := "Server Error" |}.

End Demo.

(** ** The errors that reach a caller *)

(** Some operation of the facade, called after [h], throws [e] after
    [h']. *)
Inductive facade_throws (remote : Remote) (base64_to_utf8 : string -> string)
    (h h' : History) (e : GitHubError) : Prop :=
| throws_getRepository owner repo :
    getRepository remote owner repo h = (h', Thrown e) ->
    facade_throws remote base64_to_utf8 h h' e
| throws_getFileContent owner repo path ref :
    getFileContent remote base64_to_utf8 owner repo path ref h
    = (h', Thrown e) ->
    facade_throws remote base64_to_utf8 h h' e
| throws_downloadFile owner repo path ref :
    downloadFile remote base64_to_utf8 owner repo path ref h
    = (h', Thrown e) ->
    facade_throws remote base64_to_utf8 h h' e
| throws_getRepositoryContents owner repo path ref :
    getRepositoryContents remote owner repo path ref h = (h', Thrown e) ->
    facade_throws remote base64_to_utf8 h h' e
| throws_downloadDirectory fuel owner repo path ref :
    downloadDirectory remote base64_to_utf8 fuel owner repo path ref h
    = (h', Thrown e) ->
    facade_throws remote base64_to_utf8 h h' e
| throws_searchRepositories query options :
    searchRepositories remote query options h = (h', Thrown e) ->
    facade_throws remote base64_to_utf8 h h' e
| throws_searchCode query owner repo :
    searchCode remote query owner repo h = (h', Thrown e) ->
    facade_throws remote base64_to_utf8 h h' e
| throws_getRepositoryArchive owner repo format ref :
    getRepositoryArchive remote owner repo format ref h = (h', Thrown e) ->
    facade_throws remote base64_to_utf8 h h' e
| throws_downloadRepositoryArchive owner repo format ref :
    downloadRepositoryArchive remote owner repo format ref h
    = (h', Thrown e) ->
    facade_throws remote base64_to_utf8 h h' e
| throws_getFileHistory owner repo path options :
    getFileHistory remote owner repo path options h = (h', Thrown e) ->
    facade_throws remote base64_to_utf8 h h' e
| throws_getCommitDiff owner repo ref :
    getCommitDiff remote owner repo ref h = (h', Thrown e) ->
    facade_throws remote base64_to_utf8 h h' e
| throws_compareCommits owner repo base head :
    compareCommits remote owner repo base head h = (h', Thrown e) ->
    facade_throws remote base64_to_utf8 h h' e.

(** ** More of the facade and of its caller *)

(** The constructor (lines 560-570): it throws when the token is missing
    or empty and builds the client otherwise.  [Octokit] is the client
    built from a token. *)
Definition new_GitHubTool (Octokit : string -> Remote) (token : option string)
    : GitHubError + Remote :=
  if negb (truthy token) then
    inl (Error
           "GitHub token is required. Set GITHUB_TOKEN environment variable.")
  else
    inr (Octokit (str token)).

(** A request for the content of some path of one repository at one
    reference. *)
Definition in_repository (owner repo : string) (ref : option string)
    (r : Request) : Prop :=
  exists path, r = repos_getContent owner repo path ref.

(** The entries the loop of [downloadDirectory] acts on. *)
Definition followed (item : DirectoryContent) : bool :=
  match dc_type item with
  | file | dir => true
  | symlink | submodule => false
  end.

(** The paths of the files and directories of a tree, in the order of
    the walk. *)
Fixpoint paths (t : Tree) : list string :=
  match t with
  | File item _ => [dc_path item]
  | Dir item children => dc_path item :: flat_map paths children
  | Other _ => []
  end.

(** From the history [h] to the history [h'], the requests sent include,
    in this order, one content request of the repository for each entry
    of [files], which the remote answered, at the moment it was sent, with
    the object of type file the entry is made of. *)
Inductive fetches (remote : Remote) (base64_to_utf8 : string -> string)
    (owner repo : string) (ref : option string)
    : History -> History -> list FileContent -> Prop :=
| fetches_nothing h :
    fetches remote base64_to_utf8 owner repo ref h h []
| fetches_other h r h' files :
    fetches remote base64_to_utf8 owner repo ref (h ++ [r]) h' files ->
    fetches remote base64_to_utf8 owner repo ref h h' files
| fetches_file h path data h' files :
    getContent_ remote h owner repo path ref = inr (Single data) ->
    cd_type data = file ->
    fetches remote base64_to_utf8 owner repo ref
      (h ++ [repos_getContent owner repo path ref]) h' files ->
    fetches remote base64_to_utf8 owner repo ref h h'
      (fileContent_of base64_to_utf8 data :: files).

(** The five shapes of a message [handleError] builds. *)
Definition surfaced (msg : string) : Prop :=
  (exists m, msg = ("Resource not found: " ++ m)%string)
  \/ msg = "Authentication failed. Check your GitHub token."
  \/ (exists m, msg = ("Access forbidden: " ++ m)%string)
  \/ (exists m, msg = ("Invalid request: " ++ m)%string)
  \/ (exists m, msg = ("GitHub API error: " ++ m)%string).

(** *** The archive tools of the agent

    The two [execute] functions the agent hands to the model for the
    archive tools (the agent's file, lines 147-150 and 160-163): each
    writes one line to the log, then awaits the method of the facade. *)

(** The string a format is in a template literal. *)
Definition format_name (format : ArchiveFormat) : string :=
  match format with
  | tarball => "tarball"
  | zipball => "zipball"
  end.

(** The line the two tools log, after the name of the tool. *)
Definition archive_log_line (tool owner repo : string)
    (format : option ArchiveFormat) (ref : option string) : string :=
  ("Calling " ++ tool ++ ": " ++ owner ++ "/" ++ repo ++ " ("
   ++ match format with
      | Some f => format_name f
      | None => "tarball"
      end
   ++ ")"
   ++ (if truthy ref then " (ref: " ++ str ref ++ ")" else ""))%string.

(** A computation of the agent: the lines logged so far and the requests
    sent so far, to those afterwards and an outcome. *)
Definition Logged (A : Type) : Type :=
  list string -> History -> list string * History * Outcome A.

Definition execute_getRepositoryArchive (githubTool : Remote)
    (owner repo : string) (format : option ArchiveFormat)
    (ref : option string) : Logged RepositoryArchive :=
  fun log h =>
    let log :=
      log ++ [archive_log_line "getRepositoryArchive" owner repo format ref] in
    let (h', outcome) :=
      getRepositoryArchive githubTool owner repo format ref h in
    (log, h', outcome).

Definition execute_downloadRepositoryArchive (githubTool : Remote)
    (owner repo : string) (format : option ArchiveFormat)
    (ref : option string) : Logged (list Byte.byte) :=
  fun log h =>
    let log :=
      log ++ [archive_log_line "downloadRepositoryArchive" owner repo
                format ref] in
    let (h', outcome) :=
      downloadRepositoryArchive githubTool owner repo format ref h in
    (log, h', outcome).

(** A remote on which the directory [loop] lists itself. *)
Module Loop.

Definition self : DirectoryContent :=
  {| dc_name := "loop";
     dc_path := "loop";
     dc_type := dir;
     dc_size := None;
     dc_sha := "4b825dc6";
     dc_url := "https://api.github.test/contents/loop";
     dc_html_url := None;
     dc_download_url := None |}.

Definition remote : Remote :=
  {| get_ := get_ Demo.remote;
     getContent_ := fun _ _ _ _ _ => inr (Listing [self]);
     searchRepos_ := searchRepos_ Demo.remote;
     searchCode_ := searchCode_ Demo.remote;
     downloadArchive_ := downloadArchive_ Demo.remote;
     listCommits_ := fun _ _ _ _ _ _ =>
       inr [ {| raw_sha := "9fceb02";
                raw_message := "Initial commit";
                raw_author := None;
                raw_committer :=
                  Some {| raw_name := Some "GitHub";
                          raw_email := None;
                          raw_date := Some "2025-06-01T10:00:00Z" |};
                raw_url := "https://api.github.test/commits/9fceb02";
                raw_html_url := "https://github.test/commit/9fceb02" |} ];
     getCommit_ := getCommit_ Demo.remote;
     compareCommits_ := compareCommits_ Demo.remote;
     fetch_ := fetch_ Demo.remote |}.

End Loop.

(** * Properties *)

(** ** The monad and the error handler *)

Ltac run := unfold try_catch, bind, await, ret, throw; cbn.

(** Splits a conjunction into its parts, and nothing else. *)
Ltac conjuncts := repeat match goal with |- _ /\ _ => split end.

Lemma append_empty (s : string) : (s ++ "")%string = s.
Proof. induction s as [| c s IH]; cbn; [reflexivity | now rewrite IH]. Qed.

Lemma handleError_no_status (e : GitHubError) :
  status e = None ->
  handleError e = Error ("GitHub API error: " ++ message e).
Proof.
  intros H. unfold handleError, status_is. rewrite H. reflexivity.
Qed.

Lemma handleError_Error (msg : string) :
  handleError (Error msg) = Error ("GitHub API error: " ++ msg).
Proof. reflexivity. Qed.

Lemma status_handleError (e : GitHubError) : status (handleError e) = None.
Proof.
  unfold handleError.
  repeat match goal with |- context [if ?b then _ else _] => destruct b end;
    reflexivity.
Qed.

Lemma try_catch_thrown {A} (body : M A) handler h h' e :
  try_catch body handler h = (h', Thrown e) ->
  exists e0, body h = (h', Thrown e0) /\ e = handler e0.
Proof.
  unfold try_catch. destruct (body h) as [h1 [a | e0 |]]; intros H;
    inversion H; subst. exists e0. split; reflexivity.
Qed.

Lemma try_catch_returned {A} (body : M A) handler h h' a :
  try_catch body handler h = (h', Returned a) ->
  body h = (h', Returned a).
Proof.
  unfold try_catch. destruct (body h) as [h1 [a1 | e0 |]]; intros H;
    inversion H; subst. reflexivity.
Qed.

(** What a method lets escape has been through [handleError], so it has
    no status. *)
Lemma caught_no_status {A} (body : M A) h h' e :
  try_catch body handleError h = (h', Thrown e) -> status e = None.
Proof.
  intros H. apply try_catch_thrown in H. destruct H as [e0 [_ ->]].
  apply status_handleError.
Qed.

Lemma item_eta (l : list DirectoryContent) :
  map (fun item =>
         {| dc_name := dc_name item;
            dc_path := dc_path item;
            dc_type := dc_type item;
            dc_size := dc_size item;
            dc_sha := dc_sha item;
            dc_url := dc_url item;
            dc_html_url := dc_html_url item;
            dc_download_url := dc_download_url item |}) l = l.
Proof.
  induction l as [| [] l IH]; cbn; [reflexivity | now rewrite IH].
Qed.

(** An induction principle for trees that reaches the children. *)
Lemma Tree_forall_ind (P : Tree -> Prop) :
  (forall item data, P (File item data)) ->
  (forall item children, Forall P children -> P (Dir item children)) ->
  (forall item, P (Other item)) ->
  forall t, P t.
Proof.
  intros HF HD HO. fix IH 1. intros [item data | item children | item].
  - apply HF.
  - apply HD. induction children as [| c cs IHcs]; constructor.
    + apply IH.
    + exact IHcs.
  - apply HO.
Qed.

Lemma length_leaves (t : Tree) : List.length (leaves t) = file_count t.
Proof.
  induction t as [item data | item children IH | item] using Tree_forall_ind;
    cbn; try reflexivity.
  induction IH as [| c cs Hc _ IHcs]; cbn; [reflexivity |].
  rewrite length_app. now rewrite Hc, IHcs.
Qed.

Lemma length_forest_leaves (children : list Tree) :
  List.length (flat_map leaves children) = list_sum (map file_count children).
Proof.
  induction children as [| c cs IH]; cbn; [reflexivity |].
  now rewrite length_app, length_leaves, IH.
Qed.

(** ** The two content methods on the answers of the remote *)

Section Content.

Variable remote : Remote.
Variable base64_to_utf8 : string -> string.
Variables owner repo : string.
Variable ref : option string.

Lemma getRepositoryContents_listing path h l :
  getContent_ remote h owner repo (path_or_root path) ref = inr (Listing l) ->
  getRepositoryContents remote owner repo path ref h
  = (h ++ [repos_getContent owner repo (path_or_root path) ref], Returned l).
Proof.
  intros H. unfold getRepositoryContents. run. rewrite H. cbn.
  now rewrite item_eta.
Qed.

Lemma getFileContent_file path h data :
  getContent_ remote h owner repo path ref = inr (Single data) ->
  cd_type data = file ->
  getFileContent remote base64_to_utf8 owner repo path ref h
  = (h ++ [repos_getContent owner repo path ref],
     Returned (fileContent_of base64_to_utf8 data)).
Proof.
  intros H Hfile. unfold getFileContent. run. rewrite H. cbn.
  rewrite Hfile. reflexivity.
Qed.

Lemma getFileContent_thrown path h h' e :
  getFileContent remote base64_to_utf8 owner repo path ref h = (h', Thrown e) ->
  status e = None.
Proof. apply caught_no_status. Qed.

Lemma getRepositoryContents_thrown path h h' e :
  getRepositoryContents remote owner repo path ref h = (h', Thrown e) ->
  status e = None.
Proof. apply caught_no_status. Qed.

Lemma downloadDirectory_thrown fuel path h h' e :
  downloadDirectory remote base64_to_utf8 fuel owner repo path ref h
  = (h', Thrown e) ->
  status e = None.
Proof.
  destruct fuel; cbn [downloadDirectory].
  - discriminate.
  - apply caught_no_status.
Qed.

End Content.

(** ** Walking a tree *)

Section Walk.

Variable remote : Remote.
Variable base64_to_utf8 : string -> string.
Variables owner repo : string.
Variable ref : option string.

Let walk (fuel : nat) (path : option string) : M (list FileContent) :=
  downloadDirectory remote base64_to_utf8 fuel owner repo path ref.

Let walked (path : string) (children : list Tree) (h : History)
    : History * Outcome (list FileContent) :=
  (h ++ repos_getContent owner repo path ref
        :: flat_map (requests owner repo ref) children,
   Returned (map (fileContent_of base64_to_utf8) (flat_map leaves children))).

(** The loop over the entries of served trees, given that the recursive
    call walks every served directory that is not too deep. *)
Lemma downloadItems_walk (fuel : nat) :
  (forall path children h,
      serves_at remote owner repo ref path children ->
      list_max (map height children) < fuel ->
      walk fuel (Some path) h = walked path children h) ->
  forall children,
    Forall (serves remote owner repo ref) children ->
    Forall (fun t => height t <= fuel) children ->
    forall files h,
      downloadItems remote base64_to_utf8
        (fun p => walk fuel (Some p)) owner repo ref
        (map entry children) files h
      = (h ++ flat_map (requests owner repo ref) children,
         Returned (files ++ map (fileContent_of base64_to_utf8)
                              (flat_map leaves children))).
Proof.
  intros IH children Hserved.
  induction Hserved as [| t ts Ht _ IHts]; intros Hheight files h.
  - cbn. unfold ret. now rewrite !app_nil_r.
  - inversion Hheight as [| ? ? Hh Hhs]; subst.
    destruct Ht as [item data Htype Hdata Hfile
                   | item grandchildren Htype Hlisting Hgrand
                   | item Hnf Hnd].
    + cbn [map entry downloadItems]. rewrite Htype.
      unfold bind, downloadFile.
      rewrite (getFileContent_file _ _ _ _ _ _ _ data (Hdata h) Hfile).
      rewrite (IHts Hhs). cbn [flat_map requests leaves].
      rewrite map_app. cbn [map app]. now rewrite <- !app_assoc.
    + cbn [map entry downloadItems]. rewrite Htype.
      unfold bind. cbn [height] in Hh.
      rewrite (IH (dc_path item) grandchildren h).
      * unfold walked. rewrite (IHts Hhs). cbn [flat_map requests leaves].
        rewrite map_app. cbn [app]. now rewrite <- !app_assoc.
      * split; assumption.
      * lia.
    + cbn [map entry downloadItems].
      destruct (dc_type item) eqn:Htype; try congruence; now rewrite (IHts Hhs).
Qed.

(** [downloadDirectory] on a served directory, with fuel above the height
    of its trees. *)
Lemma downloadDirectory_walk (fuel : nat) :
  forall path children h,
    serves_at remote owner repo ref (path_or_root path) children ->
    list_max (map height children) < fuel ->
    walk fuel path h = walked (path_or_root path) children h.
Proof.
  induction fuel as [| fuel IH]; intros path children h [Hlisting Hserved] Hfuel.
  - lia.
  - unfold walk. cbn [downloadDirectory]. unfold try_catch, bind.
    rewrite (getRepositoryContents_listing remote owner repo ref
               (Some (path_or_root path)) h _ (Hlisting h)).
    cbn [path_or_root].
    rewrite (downloadItems_walk fuel).
    + unfold walked. cbn [app]. now rewrite <- app_assoc.
    + intros p c h' Hp Hc. apply (IH (Some p) c h' Hp Hc).
    + exact Hserved.
    + apply (proj1 (Forall_map height (fun k => k <= fuel) children)).
      apply list_max_le. lia.
Qed.

End Walk.

(** ** A failure inside the walk *)

Section Abort.

Variable remote : Remote.
Variable base64_to_utf8 : string -> string.
Variables owner repo : string.
Variable ref : option string.

(** The loop over [before ++ rest] is the loop over [before] followed by
    the loop over [rest] on the files gathered so far. *)
Lemma downloadItems_app recurse before rest :
  forall files h,
    downloadItems remote base64_to_utf8 recurse owner repo ref
      (before ++ rest) files h
    = bind (downloadItems remote base64_to_utf8 recurse owner repo ref
              before files)
        (fun files' =>
           downloadItems remote base64_to_utf8 recurse owner repo ref
             rest files') h.
Proof.
  unfold bind. induction before as [| item before IH]; intros files h.
  - reflexivity.
  - cbn [app downloadItems]. unfold bind. destruct (dc_type item).
    + destruct (downloadFile remote base64_to_utf8 owner repo
                  (dc_path item) ref h) as [h1 [fc | e |]];
        [apply IH | reflexivity | reflexivity].
    + destruct (recurse (dc_path item) h) as [h1 [fs | e |]];
        [apply IH | reflexivity | reflexivity].
    + apply IH.
    + apply IH.
Qed.

(** A call that fails inside the walk ends the walk: what it threw is
    thrown again by the [catch], under the prefix of an error without
    status, and the history stays where the failure left it. *)
Lemma downloadDirectory_rethrows fuel path h h' e :
  fails_inside remote owner repo ref base64_to_utf8 fuel path h h' e ->
  downloadDirectory remote base64_to_utf8 (S fuel) owner repo path ref h
  = (h', Thrown (Error ("GitHub API error: " ++ message e))).
Proof.
  intros Hfail. cbn [downloadDirectory]. unfold try_catch, bind at 1.
  destruct Hfail as [h' e Hlist
                    | h1 contents before item after h2 files h' e
                        Hlist -> Hbefore Htype Hfile
                    | h1 contents before item after h2 files h' e
                        Hlist -> Hbefore Htype Hdir].
  - rewrite Hlist.
    now rewrite (handleError_no_status e
                   (getRepositoryContents_thrown _ _ _ _ _ _ _ _ Hlist)).
  - rewrite Hlist, downloadItems_app. unfold bind at 1. rewrite Hbefore.
    cbn [downloadItems]. rewrite Htype. unfold bind. rewrite Hfile.
    now rewrite (handleError_no_status e
                   (getFileContent_thrown _ _ _ _ _ _ _ _ _ Hfile)).
  - rewrite Hlist, downloadItems_app. unfold bind at 1. rewrite Hbefore.
    cbn [downloadItems]. rewrite Htype. unfold bind. rewrite Hdir.
    now rewrite (handleError_no_status e
                   (downloadDirectory_thrown _ _ _ _ _ _ _ _ _ _ Hdir)).
Qed.

End Abort.

(** ** The claims on [downloadDirectory] *)

(** C1.  When the remote holds the trees [children] in the directory at
    [path], [downloadDirectory], given fuel above their height, returns one
    [FileContent] per file of the trees, depth first and in the order of
    the listings: a file entry gives what [getFileContent] makes of the
    fetched file, a directory entry the files below it, a symbolic link or
    a submodule nothing.  It sends one listing request per directory and
    one fetch per file, in that order.  The result has as many entries as
    the trees have files, and no duplicates when the files have distinct
    paths. *)
Theorem downloadDirectory_returns_the_files_of_the_tree
    (remote : Remote) (base64_to_utf8 : string -> string)
    (owner repo : string) (path ref : option string)
    (children : list Tree) (fuel : nat) (h : History) :
  serves_at remote owner repo ref (path_or_root path) children ->
  list_max (map height children) < fuel ->
  let result :=
    map (fileContent_of base64_to_utf8) (flat_map leaves children) in
  downloadDirectory remote base64_to_utf8 fuel owner repo path ref h
  = (h ++ repos_getContent owner repo (path_or_root path) ref
          :: flat_map (requests owner repo ref) children,
     Returned result)
  /\ List.length result = list_sum (map file_count children)
  /\ (NoDup (map cd_path (flat_map leaves children)) -> NoDup result).
Proof.
  intros Hserved Hfuel result. split; [| split].
  - now apply downloadDirectory_walk.
  - unfold result. rewrite length_map. apply length_forest_leaves.
  - intros Hpaths. unfold result.
    apply (NoDup_map_inv fc_path). rewrite map_map. exact Hpaths.
Qed.

(** The walk of the demo repository: three files under two levels of
    directories, the link and the submodule skipped. *)
Lemma downloadDirectory_returns_the_files_of_the_tree_witness :
  downloadDirectory Demo.remote Base64.decode 3 "nnance" "chat-with-code"
    None None []
  = ([repos_getContent "nnance" "chat-with-code" "" None;
      repos_getContent "nnance" "chat-with-code" "README.md" None;
      repos_getContent "nnance" "chat-with-code" "src" None;
      repos_getContent "nnance" "chat-with-code" "src/main.ts" None;
      repos_getContent "nnance" "chat-with-code" "src/lib" None;
      repos_getContent "nnance" "chat-with-code" "src/lib/util.ts" None],
     Returned (map (fileContent_of Base64.decode)
                 [Demo.readme; Demo.main; Demo.util]))
  /\ List.length (map (fileContent_of Base64.decode)
                    [Demo.readme; Demo.main; Demo.util]) = 3
  /\ NoDup (map (fileContent_of Base64.decode)
              [Demo.readme; Demo.main; Demo.util]).
Proof.
  assert (Hserved : serves_at Demo.remote "nnance" "chat-with-code" None
                      (path_or_root None) Demo.root).
  { split; [intros h; reflexivity |].
    repeat first
      [ apply Forall_nil
      | apply Forall_cons
      | apply serves_file; [reflexivity | intros h; reflexivity | reflexivity]
      | apply serves_dir; [reflexivity | intros h; reflexivity |]
      | apply serves_other; discriminate ]. }
  assert (Hfuel : list_max (map height Demo.root) < 3).
  { cbn. lia. }
  destruct (downloadDirectory_returns_the_files_of_the_tree
              Demo.remote Base64.decode "nnance" "chat-with-code" None None
              Demo.root 3 [] Hserved Hfuel) as [Hrun [Hlen Hnodup]].
  split; [exact Hrun | split; [exact Hlen |]].
  apply Hnodup. cbn.
  repeat constructor; cbn; intuition discriminate.
Defined.

(** C2.  When a call nested in [downloadDirectory] fails (the listing of
    the path, the fetch of a listed file, or the walk of a listed
    directory), the whole call fails: it throws the nested error's message
    under the prefix the [catch] gives an error without status, it returns
    no file (those fetched before the failure are dropped with the local
    array), and it sends no request after the one that failed, so nothing
    is tried again. *)
Theorem downloadDirectory_fails_when_a_nested_call_fails
    (remote : Remote) (base64_to_utf8 : string -> string)
    (owner repo : string) (path ref : option string)
    (fuel : nat) (h h' : History) (e : GitHubError) :
  fails_inside remote owner repo ref base64_to_utf8 fuel path h h' e ->
  downloadDirectory remote base64_to_utf8 (S fuel) owner repo path ref h
  = (h', Thrown (Error ("GitHub API error: " ++ message e))).
Proof. apply downloadDirectory_rethrows. Qed.

(** The walk of [docs], whose second file the remote does not send: the
    first file is fetched and dropped, the third is never asked for. *)
Lemma downloadDirectory_fails_when_a_nested_call_fails_witness :
  downloadDirectory Demo.remote Base64.decode 1 "nnance" "chat-with-code"
    (Some "docs") None []
  = ([repos_getContent "nnance" "chat-with-code" "docs" None;
      repos_getContent "nnance" "chat-with-code" "README.md" None;
      repos_getContent "nnance" "chat-with-code" "docs/guide.md" None],
     Thrown (Error "GitHub API error: Resource not found: Not Found")).
Proof.
  apply (downloadDirectory_fails_when_a_nested_call_fails
           Demo.remote Base64.decode "nnance" "chat-with-code"
           (Some "docs") None 0 [] _
           (Error "Resource not found: Not Found")).
  apply (file_fails Demo.remote "nnance" "chat-with-code" None
           Base64.decode 0 (Some "docs") []
           [repos_getContent "nnance" "chat-with-code" "docs" None]
           [Demo.item "intro.md" "README.md" file;
            Demo.item "guide.md" "docs/guide.md" file;
            Demo.item "api.md" "docs/api.md" file]
           [Demo.item "intro.md" "README.md" file]
           (Demo.item "guide.md" "docs/guide.md" file)
           [Demo.item "api.md" "docs/api.md" file]
           [repos_getContent "nnance" "chat-with-code" "docs" None;
            repos_getContent "nnance" "chat-with-code" "README.md" None]
           [fileContent_of Base64.decode Demo.readme]);
    reflexivity.
Defined.

(** ** Every method on what the remote answers to its own request *)

Section Operations.

Variable remote : Remote.
Variable base64_to_utf8 : string -> string.

Ltac fails_with H := intros H; run; rewrite H; reflexivity.

Lemma getRepository_fails owner repo h e :
  get_ remote h owner repo = inl e ->
  getRepository remote owner repo h
  = (h ++ [repos_get owner repo], Thrown (handleError e)).
Proof. unfold getRepository. fails_with H. Qed.

Lemma getFileContent_fails owner repo path ref h e :
  getContent_ remote h owner repo path ref = inl e ->
  getFileContent remote base64_to_utf8 owner repo path ref h
  = (h ++ [repos_getContent owner repo path ref], Thrown (handleError e)).
Proof. unfold getFileContent. fails_with H. Qed.

Lemma getRepositoryContents_fails owner repo path ref h e :
  getContent_ remote h owner repo (path_or_root path) ref = inl e ->
  getRepositoryContents remote owner repo path ref h
  = (h ++ [repos_getContent owner repo (path_or_root path) ref],
     Thrown (handleError e)).
Proof. unfold getRepositoryContents. fails_with H. Qed.

Lemma searchRepositories_fails query options h e :
  let o := match options with
           | Some o => o
           | None => mkSearchOptions None None None None
           end in
  searchRepos_ remote h query (or_number (so_per_page o) 30)
    (or_number (so_page o) 1) (so_sort o) (so_order o) = inl e ->
  searchRepositories remote query options h
  = (h ++ [search_repos query (or_number (so_per_page o) 30)
             (or_number (so_page o) 1) (so_sort o) (so_order o)],
     Thrown (handleError e)).
Proof. unfold searchRepositories. fails_with H. Qed.

Lemma searchCode_fails query owner repo h e :
  searchCode_ remote h (searchQuery query owner repo) 30 = inl e ->
  searchCode remote query owner repo h
  = (h ++ [search_code (searchQuery query owner repo) 30],
     Thrown (handleError e)).
Proof. unfold searchCode. fails_with H. Qed.

Lemma getRepositoryArchive_fails owner repo format ref h e :
  downloadArchive_ remote h owner repo (format_or_default format)
    (or_string ref "HEAD") = inl e ->
  getRepositoryArchive remote owner repo format ref h
  = (h ++ [repos_downloadArchive owner repo (format_or_default format)
             (or_string ref "HEAD")],
     Thrown (handleError e)).
Proof. unfold getRepositoryArchive. fails_with H. Qed.

Lemma getRepositoryArchive_resolves owner repo format ref h url :
  downloadArchive_ remote h owner repo (format_or_default format)
    (or_string ref "HEAD") = inr url ->
  getRepositoryArchive remote owner repo format ref h
  = (h ++ [repos_downloadArchive owner repo (format_or_default format)
             (or_string ref "HEAD")],
     Returned
       {| downloadUrl := url;
          filename :=
            repo ++ "-" ++ or_string ref "HEAD" ++ "."
            ++ match format_or_default format with
               | zipball => "zip"
               | tarball => "tar.gz"
               end;
          archive_ref := or_string ref "HEAD";
          format := format_or_default format |}).
Proof. unfold getRepositoryArchive. fails_with H. Qed.

(** The format is defined when [downloadRepositoryArchive] passes it on. *)
Lemma getRepositoryArchive_format owner repo format ref :
  getRepositoryArchive remote owner repo (Some (format_or_default format)) ref
  = getRepositoryArchive remote owner repo format ref.
Proof. destruct format; reflexivity. Qed.

Lemma getRepositoryArchive_history owner repo format ref h h' archive :
  getRepositoryArchive remote owner repo format ref h = (h', Returned archive) ->
  h' = h ++ [repos_downloadArchive owner repo (format_or_default format)
               (or_string ref "HEAD")].
Proof.
  unfold getRepositoryArchive. run.
  destruct (downloadArchive_ remote h owner repo (format_or_default format)
              (or_string ref "HEAD")); intros H; inversion H; reflexivity.
Qed.

Lemma downloadRepositoryArchive_fetch owner repo format ref h h' archive :
  getRepositoryArchive remote owner repo format ref h = (h', Returned archive) ->
  downloadRepositoryArchive remote owner repo format ref h
  = (h' ++ [fetch (downloadUrl archive)],
     match fetch_ remote h' (downloadUrl archive) with
     | inl e => Thrown (handleError e)
     | inr response =>
         if ok response then Returned (arrayBuffer response)
         else Thrown (Error ("GitHub API error: Failed to download archive: "
                             ++ statusText response))
     end).
Proof.
  intros H. unfold downloadRepositoryArchive.
  rewrite getRepositoryArchive_format. unfold try_catch, bind at 1.
  rewrite H. unfold bind, await.
  destruct (fetch_ remote h' (downloadUrl archive)) as [e | response];
    [reflexivity |].
  destruct (ok response); reflexivity.
Qed.

Lemma downloadRepositoryArchive_rethrows owner repo format ref h h' e :
  getRepositoryArchive remote owner repo format ref h = (h', Thrown e) ->
  downloadRepositoryArchive remote owner repo format ref h
  = (h', Thrown (Error ("GitHub API error: " ++ message e))).
Proof.
  intros H. unfold downloadRepositoryArchive.
  rewrite getRepositoryArchive_format. unfold try_catch at 1, bind at 1.
  rewrite H. now rewrite (handleError_no_status e (caught_no_status _ _ _ _ H)).
Qed.

Lemma getFileHistory_fails owner repo path options h e :
  let o := match options with
           | Some o => o
           | None => mkPageOptions None None
           end in
  listCommits_ remote h owner repo path (or_number (po_per_page o) 30)
    (or_number (po_page o) 1) = inl e ->
  getFileHistory remote owner repo path options h
  = (h ++ [repos_listCommits owner repo path (or_number (po_per_page o) 30)
             (or_number (po_page o) 1)],
     Thrown (handleError e)).
Proof. unfold getFileHistory. fails_with H. Qed.

Lemma getCommitDiff_fails owner repo ref h e :
  getCommit_ remote h owner repo ref "diff" = inl e ->
  getCommitDiff remote owner repo ref h
  = (h ++ [repos_getCommit owner repo ref "diff"], Thrown (handleError e)).
Proof. unfold getCommitDiff. fails_with H. Qed.

Lemma compareCommits_fails owner repo base head h e :
  compareCommits_ remote h owner repo base head "diff" = inl e ->
  compareCommits remote owner repo base head h
  = (h ++ [repos_compareCommits owner repo base head "diff"],
     Thrown (handleError e)).
Proof. unfold compareCommits. fails_with H. Qed.

(** The path-kind mismatches. *)
Lemma getFileContent_listing owner repo path ref h l :
  getContent_ remote h owner repo path ref = inr (Listing l) ->
  getFileContent remote base64_to_utf8 owner repo path ref h
  = (h ++ [repos_getContent owner repo path ref],
     Thrown (Error ("GitHub API error: Path " ++ dquote ++ path ++ dquote
                    ++ " is a directory, not a file"))).
Proof. unfold getFileContent. fails_with H. Qed.

Lemma getFileContent_not_file owner repo path ref h data :
  getContent_ remote h owner repo path ref = inr (Single data) ->
  cd_type data <> file ->
  getFileContent remote base64_to_utf8 owner repo path ref h
  = (h ++ [repos_getContent owner repo path ref],
     Thrown (Error ("GitHub API error: Path " ++ dquote ++ path ++ dquote
                    ++ " is not a file"))).
Proof.
  intros H Htype. unfold getFileContent. run. rewrite H. cbn.
  destruct (cd_type data); try congruence; reflexivity.
Qed.

Lemma getRepositoryContents_single owner repo path ref h data :
  getContent_ remote h owner repo (path_or_root path) ref
  = inr (Single data) ->
  getRepositoryContents remote owner repo path ref h
  = (h ++ [repos_getContent owner repo (path_or_root path) ref],
     Thrown (Error ("GitHub API error: Path " ++ dquote ++ path_or_root path
                    ++ dquote ++ " is a file, not a directory"))).
Proof. unfold getRepositoryContents. fails_with H. Qed.

(** What the two content methods return tells what the remote answered. *)
Lemma getFileContent_returned owner repo path ref h h' fc :
  getFileContent remote base64_to_utf8 owner repo path ref h
  = (h', Returned fc) ->
  exists data,
    getContent_ remote h owner repo path ref = inr (Single data)
    /\ cd_type data = file
    /\ fc = fileContent_of base64_to_utf8 data
    /\ h' = h ++ [repos_getContent owner repo path ref].
Proof.
  unfold getFileContent. run.
  destruct (getContent_ remote h owner repo path ref) as [e | [data | l]];
    cbn; try discriminate.
  destruct (cd_type data) eqn:Htype; cbn; try discriminate.
  intros H. inversion H. exists data. repeat split; reflexivity || assumption.
Qed.

Lemma getRepositoryContents_returned owner repo path ref h h' l :
  getRepositoryContents remote owner repo path ref h = (h', Returned l) ->
  getContent_ remote h owner repo (path_or_root path) ref = inr (Listing l)
  /\ h' = h ++ [repos_getContent owner repo (path_or_root path) ref].
Proof.
  unfold getRepositoryContents. run.
  destruct (getContent_ remote h owner repo (path_or_root path) ref)
    as [e | [data | l']]; cbn; try discriminate.
  rewrite item_eta. intros H. inversion H. split; reflexivity.
Qed.

End Operations.

(** ** The claims on error normalization *)

(** C3, as the specification states it, fails at [downloadDirectory]:
    the remote answers the listing of a missing path with status 404, and
    the caller gets the not-found message under the general prefix, not
    what [handleError] makes of the 404.  So it is not so that every
    remote failure of the listing surfaces as its status alone decides.
    It fails as well at the retrieval of [downloadRepositoryArchive]: a
    retrieval the remote answers with a status that is not ok is no
    thrown error, and the caller gets the download error built from the
    status text. *)
Lemma downloadDirectory_does_not_surface_by_status :
  getContent_ Demo.remote [] "nnance" "chat-with-code" "nope" None
  = inl Demo.not_found
  /\ status Demo.not_found = Some 404%Z
  /\ handleError Demo.not_found = Error "Resource not found: Not Found"
  /\ downloadDirectory Demo.remote Base64.decode 1 "nnance" "chat-with-code"
       (Some "nope") None []
     = ([repos_getContent "nnance" "chat-with-code" "nope" None],
        Thrown (Error "GitHub API error: Resource not found: Not Found"))
  /\ fetch_ Demo.remote
       [repos_downloadArchive "nnance" "chat-with-code" tarball "HEAD"]
       Demo.tar_url
     = inr {| ok := false; statusText := "Not Found"; arrayBuffer := [] |}
  /\ downloadRepositoryArchive Demo.remote "nnance" "chat-with-code"
       (Some tarball) None []
     = ([repos_downloadArchive "nnance" "chat-with-code" tarball "HEAD";
         fetch Demo.tar_url],
        Thrown (Error "GitHub API error: Failed to download archive: Not Found"))
  /\ ~ (forall remote base64_to_utf8 fuel owner repo path ref h e,
          getContent_ remote h owner repo (path_or_root path) ref = inl e ->
          downloadDirectory remote base64_to_utf8 (S fuel) owner repo path
            ref h
          = (h ++ [repos_getContent owner repo (path_or_root path) ref],
             Thrown (handleError e))).
Proof.
  conjuncts; try reflexivity.
  intros H.
  specialize (H Demo.remote Base64.decode 0 "nnance" "chat-with-code"
                (Some "nope") None [] Demo.not_found eq_refl).
  vm_compute in H. discriminate H.
Qed.

(** C3, amended.  For every method that sends the failing request itself
    (every method but [downloadDirectory], whose requests are sent by
    [getRepositoryContents] and [downloadFile], and the location request
    of [downloadRepositoryArchive], sent by [getRepositoryArchive]), an
    error [e] the client throws for the request surfaces as
    [handleError e], which the status alone decides: 404, 403 and 422 give
    their kind with the remote's message or a fixed phrase in its place,
    401 gives a fixed message, any other status or none gives the
    original message under the general prefix.  So does an error [fetch]
    throws for the retrieval of [downloadRepositoryArchive] (a failure of
    the network).  A retrieval that is answered, with a status that is not
    ok, is no thrown error and is not classified by status: whatever the
    status, it surfaces as the download error built from the status
    text. *)
Theorem remote_failure_surfaces_by_status
    (remote : Remote) (base64_to_utf8 : string -> string)
    (h : History) (e : GitHubError) :
  ((status e = Some 404%Z ->
    handleError e
    = Error ("Resource not found: "
             ++ or_string (response_message e) "Not found"))
   /\ (status e = Some 401%Z ->
       handleError e
       = Error "Authentication failed. Check your GitHub token.")
   /\ (status e = Some 403%Z ->
       handleError e
       = Error ("Access forbidden: "
                ++ or_string (response_message e) "Forbidden"))
   /\ (status e = Some 422%Z ->
       handleError e
       = Error ("Invalid request: "
                ++ or_string (response_message e) "Unprocessable entity"))
   /\ (status e <> Some 404%Z -> status e <> Some 401%Z ->
       status e <> Some 403%Z -> status e <> Some 422%Z ->
       handleError e = Error ("GitHub API error: " ++ message e)))
  /\ (forall owner repo,
         get_ remote h owner repo = inl e ->
         getRepository remote owner repo h
         = (h ++ [repos_get owner repo], Thrown (handleError e)))
  /\ (forall owner repo path ref,
         getContent_ remote h owner repo path ref = inl e ->
         getFileContent remote base64_to_utf8 owner repo path ref h
         = (h ++ [repos_getContent owner repo path ref],
            Thrown (handleError e)))
  /\ (forall owner repo path ref,
         getContent_ remote h owner repo path ref = inl e ->
         downloadFile remote base64_to_utf8 owner repo path ref h
         = (h ++ [repos_getContent owner repo path ref],
            Thrown (handleError e)))
  /\ (forall owner repo path ref,
         getContent_ remote h owner repo (path_or_root path) ref = inl e ->
         getRepositoryContents remote owner repo path ref h
         = (h ++ [repos_getContent owner repo (path_or_root path) ref],
            Thrown (handleError e)))
  /\ (forall query options,
         let o := match options with
                  | Some o => o
                  | None => mkSearchOptions None None None None
                  end in
         searchRepos_ remote h query (or_number (so_per_page o) 30)
           (or_number (so_page o) 1) (so_sort o) (so_order o) = inl e ->
         searchRepositories remote query options h
         = (h ++ [search_repos query (or_number (so_per_page o) 30)
                    (or_number (so_page o) 1) (so_sort o) (so_order o)],
            Thrown (handleError e)))
  /\ (forall query owner repo,
         searchCode_ remote h (searchQuery query owner repo) 30 = inl e ->
         searchCode remote query owner repo h
         = (h ++ [search_code (searchQuery query owner repo) 30],
            Thrown (handleError e)))
  /\ (forall owner repo format ref,
         downloadArchive_ remote h owner repo (format_or_default format)
           (or_string ref "HEAD") = inl e ->
         getRepositoryArchive remote owner repo format ref h
         = (h ++ [repos_downloadArchive owner repo (format_or_default format)
                    (or_string ref "HEAD")],
            Thrown (handleError e)))
  /\ (forall owner repo format ref h0 archive,
         getRepositoryArchive remote owner repo format ref h0
         = (h, Returned archive) ->
         fetch_ remote h (downloadUrl archive) = inl e ->
         downloadRepositoryArchive remote owner repo format ref h0
         = (h ++ [fetch (downloadUrl archive)], Thrown (handleError e)))
  /\ (forall owner repo path options,
         let o := match options with
                  | Some o => o
                  | None => mkPageOptions None None
                  end in
         listCommits_ remote h owner repo path (or_number (po_per_page o) 30)
           (or_number (po_page o) 1) = inl e ->
         getFileHistory remote owner repo path options h
         = (h ++ [repos_listCommits owner repo path (or_number (po_per_page o) 30)
                    (or_number (po_page o) 1)],
            Thrown (handleError e)))
  /\ (forall owner repo ref,
         getCommit_ remote h owner repo ref "diff" = inl e ->
         getCommitDiff remote owner repo ref h
         = (h ++ [repos_getCommit owner repo ref "diff"],
            Thrown (handleError e)))
  /\ (forall owner repo base head,
         compareCommits_ remote h owner repo base head "diff" = inl e ->
         compareCommits remote owner repo base head h
         = (h ++ [repos_compareCommits owner repo base head "diff"],
            Thrown (handleError e)))
  /\ (forall owner repo format ref h0 archive response,
         getRepositoryArchive remote owner repo format ref h0
         = (h, Returned archive) ->
         fetch_ remote h (downloadUrl archive) = inr response ->
         ok response = false ->
         downloadRepositoryArchive remote owner repo format ref h0
         = (h ++ [fetch (downloadUrl archive)],
            Thrown (Error ("GitHub API error: Failed to download archive: "
                           ++ statusText response)))).
Proof.
  split; [| conjuncts].
  - unfold handleError, status_is.
    repeat split; try (intros ->; reflexivity).
    intros H404 H401 H403 H422.
    destruct (status e) as [s |]; [| reflexivity].
    destruct (Z.eqb_spec s 404); [congruence |].
    destruct (Z.eqb_spec s 401); [congruence |].
    destruct (Z.eqb_spec s 403); [congruence |].
    destruct (Z.eqb_spec s 422); [congruence |].
    reflexivity.
  - intros; now apply getRepository_fails.
  - intros; now apply getFileContent_fails.
  - intros; now apply getFileContent_fails.
  - intros; now apply getRepositoryContents_fails.
  - intros; now apply searchRepositories_fails.
  - intros; now apply searchCode_fails.
  - intros; now apply getRepositoryArchive_fails.
  - intros owner repo format ref h0 archive Harchive Hfetch.
    rewrite (downloadRepositoryArchive_fetch _ _ _ _ _ _ _ _ Harchive).
    now rewrite Hfetch.
  - intros; now apply getFileHistory_fails.
  - intros; now apply getCommitDiff_fails.
  - intros; now apply compareCommits_fails.
  - intros owner repo format ref h0 archive response Harchive Hfetch Hok.
    rewrite (downloadRepositoryArchive_fetch _ _ _ _ _ _ _ _ Harchive).
    now rewrite Hfetch, Hok.
Qed.

(** Every method on a remote that answers 404, the handler on the other
    statuses, the retrieval of an archive with the network down, and a
    retrieval answered with a status that is not ok. *)
Lemma remote_failure_surfaces_by_status_witness :
  let down := Demo.failing Demo.not_found in
  (handleError Demo.not_found = Error "Resource not found: Not Found"
   /\ handleError Demo.unauthorized
      = Error "Authentication failed. Check your GitHub token."
   /\ handleError Demo.forbidden
      = Error "Access forbidden: API rate limit exceeded"
   /\ handleError Demo.unprocessable
      = Error "Invalid request: Unprocessable entity"
   /\ handleError Demo.server_error = Error "GitHub API error: Server Error")
  /\ getRepository down "nnance" "chat-with-code" []
     = ([repos_get "nnance" "chat-with-code"],
        Thrown (Error "Resource not found: Not Found"))
  /\ getFileContent down Base64.decode "nnance" "chat-with-code" "README.md"
       None []
     = ([repos_getContent "nnance" "chat-with-code" "README.md" None],
        Thrown (Error "Resource not found: Not Found"))
  /\ downloadFile down Base64.decode "nnance" "chat-with-code" "README.md"
       None []
     = ([repos_getContent "nnance" "chat-with-code" "README.md" None],
        Thrown (Error "Resource not found: Not Found"))
  /\ getRepositoryContents down "nnance" "chat-with-code" None None []
     = ([repos_getContent "nnance" "chat-with-code" "" None],
        Thrown (Error "Resource not found: Not Found"))
  /\ searchRepositories down "rocq" None []
     = ([search_repos "rocq" 30 1 None None],
        Thrown (Error "Resource not found: Not Found"))
  /\ searchCode down "handleError" (Some "nnance") None []
     = ([search_code "handleError user:nnance" 30],
        Thrown (Error "Resource not found: Not Found"))
  /\ getRepositoryArchive down "nnance" "chat-with-code" None None []
     = ([repos_downloadArchive "nnance" "chat-with-code" zipball "HEAD"],
        Thrown (Error "Resource not found: Not Found"))
  /\ downloadRepositoryArchive Demo.offline "nnance" "chat-with-code"
       None None []
     = ([repos_downloadArchive "nnance" "chat-with-code" zipball "HEAD";
         fetch Demo.zip_url],
        Thrown (Error "GitHub API error: fetch failed"))
  /\ getFileHistory down "nnance" "chat-with-code" "README.md" None []
     = ([repos_listCommits "nnance" "chat-with-code" "README.md" 30 1],
        Thrown (Error "Resource not found: Not Found"))
  /\ getCommitDiff down "nnance" "chat-with-code" "HEAD" []
     = ([repos_getCommit "nnance" "chat-with-code" "HEAD" "diff"],
        Thrown (Error "Resource not found: Not Found"))
  /\ compareCommits down "nnance" "chat-with-code" "main" "dev" []
     = ([repos_compareCommits "nnance" "chat-with-code" "main" "dev" "diff"],
        Thrown (Error "Resource not found: Not Found"))
  /\ downloadRepositoryArchive Demo.remote "nnance" "chat-with-code"
       (Some tarball) None []
     = ([repos_downloadArchive "nnance" "chat-with-code" tarball "HEAD";
         fetch Demo.tar_url],
        Thrown (Error "GitHub API error: Failed to download archive: Not Found")).
Proof.
  intros down.
  destruct (remote_failure_surfaces_by_status down Base64.decode []
              Demo.not_found)
    as [[H404 _] [Hget [Hfile [Hdown [Hlist [Hrepos [Hcode [Harchive
          [_ [Hhistory [Hdiff [Hcompare _]]]]]]]]]]]].
  destruct (remote_failure_surfaces_by_status down Base64.decode []
              Demo.unauthorized) as [[_ [H401 _]] _].
  destruct (remote_failure_surfaces_by_status down Base64.decode []
              Demo.forbidden) as [[_ [_ [H403 _]]] _].
  destruct (remote_failure_surfaces_by_status down Base64.decode []
              Demo.unprocessable) as [[_ [_ [_ [H422 _]]]] _].
  destruct (remote_failure_surfaces_by_status down Base64.decode []
              Demo.server_error) as [[_ [_ [_ [_ H500]]]] _].
  destruct (remote_failure_surfaces_by_status Demo.offline Base64.decode
              [repos_downloadArchive "nnance" "chat-with-code" zipball "HEAD"]
              (Error "fetch failed"))
    as [_ [_ [_ [_ [_ [_ [_ [_ [Hfetch _]]]]]]]]].
  destruct (remote_failure_surfaces_by_status Demo.remote Base64.decode
              [repos_downloadArchive "nnance" "chat-with-code" tarball "HEAD"]
              Demo.not_found)
    as [_ [_ [_ [_ [_ [_ [_ [_ [_ [_ [_ [_ Hanswered]]]]]]]]]]]].
  conjuncts.
  - exact (H404 eq_refl).
  - exact (H401 eq_refl).
  - exact (H403 eq_refl).
  - exact (H422 eq_refl).
  - apply H500; discriminate.
  - exact (Hget "nnance" "chat-with-code" eq_refl).
  - exact (Hfile "nnance" "chat-with-code" "README.md" None eq_refl).
  - exact (Hdown "nnance" "chat-with-code" "README.md" None eq_refl).
  - exact (Hlist "nnance" "chat-with-code" None None eq_refl).
  - exact (Hrepos "rocq" None eq_refl).
  - exact (Hcode "handleError" (Some "nnance") None eq_refl).
  - exact (Harchive "nnance" "chat-with-code" None None eq_refl).
  - exact (Hfetch "nnance" "chat-with-code" None None []
             {| downloadUrl := Demo.zip_url;
                filename := "chat-with-code-HEAD.zip";
                archive_ref := "HEAD";
                format := zipball |} eq_refl eq_refl).
  - exact (Hhistory "nnance" "chat-with-code" "README.md" None eq_refl).
  - exact (Hdiff "nnance" "chat-with-code" "HEAD" eq_refl).
  - exact (Hcompare "nnance" "chat-with-code" "main" "dev" eq_refl).
  - exact (Hanswered "nnance" "chat-with-code" (Some tarball) None []
             {| downloadUrl := Demo.tar_url;
                filename := "chat-with-code-HEAD.tar.gz";
                archive_ref := "HEAD";
                format := tarball |}
             {| ok := false; statusText := "Not Found"; arrayBuffer := [] |}
             eq_refl eq_refl eq_refl).
Defined.

(** ** The claims on the content methods *)

(** C4.  When the remote answers the content request with a listing,
    [getFileContent] fails with the error it builds for a directory; when
    it answers with one object, [getRepositoryContents] fails with the
    error it builds for a file.  Either error is built by the method from
    the shape of a successful answer and carries no status.
    [getFileContent] returns only on one object (of type file),
    [getRepositoryContents] only on a listing. *)
Theorem path_kind_mismatch_is_detected_locally
    (remote : Remote) (base64_to_utf8 : string -> string)
    (owner repo path : string) (ref : option string) (h : History) :
  (forall l,
      getContent_ remote h owner repo path ref = inr (Listing l) ->
      getFileContent remote base64_to_utf8 owner repo path ref h
      = (h ++ [repos_getContent owner repo path ref],
         Thrown (Error ("GitHub API error: Path " ++ dquote ++ path ++ dquote
                        ++ " is a directory, not a file"))))
  /\ (forall data,
         getContent_ remote h owner repo path ref = inr (Single data) ->
         getRepositoryContents remote owner repo (Some path) ref h
         = (h ++ [repos_getContent owner repo path ref],
            Thrown (Error ("GitHub API error: Path " ++ dquote ++ path
                           ++ dquote ++ " is a file, not a directory"))))
  /\ (forall h' fc,
         getFileContent remote base64_to_utf8 owner repo path ref h
         = (h', Returned fc) ->
         exists data,
           getContent_ remote h owner repo path ref = inr (Single data)
           /\ cd_type data = file)
  /\ (forall h' l,
         getRepositoryContents remote owner repo (Some path) ref h
         = (h', Returned l) ->
         getContent_ remote h owner repo path ref = inr (Listing l)).
Proof.
  conjuncts.
  - intros l H. now apply getFileContent_listing with (l := l).
  - intros data H.
    now apply (getRepositoryContents_single remote owner repo (Some path))
      with (data := data).
  - intros h' fc H. apply getFileContent_returned in H.
    destruct H as [data [Hdata [Hfile _]]]. now exists data.
  - intros h' l H. now apply getRepositoryContents_returned in H.
Qed.

(** A file asked of a directory, a listing asked of a file, and the two
    methods on the kind they ask for. *)
Lemma path_kind_mismatch_is_detected_locally_witness :
  getFileContent Demo.remote Base64.decode "nnance" "chat-with-code" "src"
    None []
  = ([repos_getContent "nnance" "chat-with-code" "src" None],
     Thrown (Error ("GitHub API error: Path " ++ dquote ++ "src" ++ dquote
                    ++ " is a directory, not a file")))
  /\ getRepositoryContents Demo.remote "nnance" "chat-with-code"
       (Some "README.md") None []
     = ([repos_getContent "nnance" "chat-with-code" "README.md" None],
        Thrown (Error ("GitHub API error: Path " ++ dquote ++ "README.md"
                       ++ dquote ++ " is a file, not a directory")))
  /\ (exists data,
         getContent_ Demo.remote [] "nnance" "chat-with-code" "README.md" None
         = inr (Single data) /\ cd_type data = file)
  /\ getContent_ Demo.remote [] "nnance" "chat-with-code" "src/lib" None
     = inr (Listing [Demo.item "util.ts" "src/lib/util.ts" file]).
Proof.
  destruct (path_kind_mismatch_is_detected_locally Demo.remote Base64.decode
              "nnance" "chat-with-code" "src" None []) as [Hdir _].
  destruct (path_kind_mismatch_is_detected_locally Demo.remote Base64.decode
              "nnance" "chat-with-code" "README.md" None [])
    as [_ [Hfile [Hreturned _]]].
  destruct (path_kind_mismatch_is_detected_locally Demo.remote Base64.decode
              "nnance" "chat-with-code" "src/lib" None [])
    as [_ [_ [_ Hlisted]]].
  conjuncts.
  - exact (Hdir _ eq_refl).
  - exact (Hfile _ eq_refl).
  - exact (Hreturned
             [repos_getContent "nnance" "chat-with-code" "README.md" None]
             (fileContent_of Base64.decode Demo.readme) eq_refl).
  - exact (Hlisted
             [repos_getContent "nnance" "chat-with-code" "src/lib" None]
             [Demo.item "util.ts" "src/lib/util.ts" file] eq_refl).
Defined.

(** C5.  Whenever [getFileContent] returns, the remote sent one file; the
    returned content is the decoded body when the remote's encoding tag
    is base64 and the body as sent otherwise, and the returned encoding is
    the remote's tag in both cases. *)
Theorem getFileContent_decodes_and_keeps_the_tag
    (remote : Remote) (base64_to_utf8 : string -> string)
    (owner repo path : string) (ref : option string)
    (h h' : History) (fc : FileContent) :
  getFileContent remote base64_to_utf8 owner repo path ref h
  = (h', Returned fc) ->
  exists data,
    getContent_ remote h owner repo path ref = inr (Single data)
    /\ (cd_encoding data = "base64" ->
        fc_content fc = base64_to_utf8 (cd_content data))
    /\ (cd_encoding data <> "base64" -> fc_content fc = cd_content data)
    /\ fc_encoding fc = cd_encoding data.
Proof.
  intros H. apply getFileContent_returned in H.
  destruct H as [data [Hdata [_ [-> _]]]]. exists data.
  split; [exact Hdata |]. cbn.
  destruct (String.eqb_spec (cd_encoding data) "base64") as [Heq | Hneq];
    conjuncts; congruence.
Qed.

(** The README of the demo repository, sent in base64. *)
Lemma getFileContent_decodes_and_keeps_the_tag_witness :
  (exists data,
      getContent_ Demo.remote [] "nnance" "chat-with-code" "README.md" None
      = inr (Single data)
      /\ (cd_encoding data = "base64" ->
          fc_content (fileContent_of Base64.decode Demo.readme)
          = Base64.decode (cd_content data))
      /\ (cd_encoding data <> "base64" ->
          fc_content (fileContent_of Base64.decode Demo.readme)
          = cd_content data)
      /\ fc_encoding (fileContent_of Base64.decode Demo.readme)
         = cd_encoding data)
  /\ fc_content (fileContent_of Base64.decode Demo.readme) = "hello"
  /\ fc_encoding (fileContent_of Base64.decode Demo.readme) = "base64".
Proof.
  split; [| split; reflexivity].
  apply (getFileContent_decodes_and_keeps_the_tag Demo.remote Base64.decode
           "nnance" "chat-with-code" "README.md" None []
           [repos_getContent "nnance" "chat-with-code" "README.md" None]).
  reflexivity.
Defined.

(** ** The claims on the archive methods *)

(** C6.  [getRepositoryArchive] asks the remote for the format it is
    passed, and for [zipball] (the archive whose suggested name ends in
    zip, not the gzip-compressed tarball) when it is passed none; for the
    reference it is passed, and for HEAD when it is passed none or an
    empty one.  When the remote resolves the request, the method returns
    the resolved location, the suggested filename (repository, reference
    and the extension of the format), that reference and that format.
    Whatever the remote answers, this one request is all the method
    sends: it adds no retrieval to the history, so the bytes of the
    archive are not fetched. *)
Theorem getRepositoryArchive_resolves_a_location
    (remote : Remote) (owner repo : string)
    (format : option ArchiveFormat) (ref : option string)
    (h : History) (url : string) :
  let requested :=
    match format with
    | Some f => f
    | None => zipball
    end in
  let reference :=
    match ref with
    | Some r => if (r =? "")%string then "HEAD" else r
    | None => "HEAD"
    end in
  downloadArchive_ remote h owner repo requested reference = inr url ->
  getRepositoryArchive remote owner repo format ref h
  = (h ++ [repos_downloadArchive owner repo requested reference],
     Returned
       {| downloadUrl := url;
          filename :=
            repo ++ "-" ++ reference ++ "."
            ++ match requested with
               | zipball => "zip"
               | tarball => "tar.gz"
               end;
          archive_ref := reference;
          format := requested |})
  /\ (forall remote',
         fst (getRepositoryArchive remote' owner repo format ref h)
         = h ++ [repos_downloadArchive owner repo requested reference]
         /\ filter is_fetch
              (fst (getRepositoryArchive remote' owner repo format ref h))
            = filter is_fetch h).
Proof.
  intros requested reference H.
  assert (Hformat : format_or_default format = requested)
    by (now destruct format).
  assert (Href : or_string ref "HEAD" = reference) by reflexivity.
  split.
  - rewrite <- Hformat, <- Href in H.
    rewrite (getRepositoryArchive_resolves remote owner repo format ref h url H).
    now rewrite Hformat, Href.
  - intros remote'.
    assert (Hsent : fst (getRepositoryArchive remote' owner repo format ref h)
                    = h ++ [repos_downloadArchive owner repo requested
                              reference]).
    { rewrite <- Hformat, <- Href. unfold getRepositoryArchive. run.
      now destruct (downloadArchive_ remote' h owner repo
                      (format_or_default format) (or_string ref "HEAD")). }
    split; [exact Hsent |].
    rewrite Hsent, filter_app. cbn. apply app_nil_r.
Qed.

(** The archive of the demo repository with neither format nor reference,
    and its tarball at the reference main. *)
Lemma getRepositoryArchive_resolves_a_location_witness :
  getRepositoryArchive Demo.remote "nnance" "chat-with-code" None None []
  = ([repos_downloadArchive "nnance" "chat-with-code" zipball "HEAD"],
     Returned
       {| downloadUrl := Demo.zip_url;
          filename := "chat-with-code-HEAD.zip";
          archive_ref := "HEAD";
          format := zipball |})
  /\ getRepositoryArchive Demo.remote "nnance" "chat-with-code"
       (Some tarball) (Some "main") []
     = ([repos_downloadArchive "nnance" "chat-with-code" tarball "main"],
        Returned
          {| downloadUrl := Demo.tar_url;
             filename := "chat-with-code-main.tar.gz";
             archive_ref := "main";
             format := tarball |})
  /\ filter is_fetch
       (fst (getRepositoryArchive (Demo.failing Demo.not_found) "nnance"
               "chat-with-code" (Some tarball) (Some "main") []))
     = [].
Proof.
  conjuncts.
  - exact (proj1 (getRepositoryArchive_resolves_a_location Demo.remote
                    "nnance" "chat-with-code" None None [] Demo.zip_url
                    eq_refl)).
  - exact (proj1 (getRepositoryArchive_resolves_a_location Demo.remote
                    "nnance" "chat-with-code" (Some tarball) (Some "main") []
                    Demo.tar_url eq_refl)).
  - exact (proj2 (proj2 (getRepositoryArchive_resolves_a_location Demo.remote
                           "nnance" "chat-with-code" (Some tarball)
                           (Some "main") [] Demo.tar_url eq_refl)
                    (Demo.failing Demo.not_found))).
Defined.

(** C7.  [downloadRepositoryArchive] first resolves the location through
    [getRepositoryArchive]; when that returns, it retrieves the location,
    and on the answer of the retrieval it returns the whole payload when
    the answer is ok, and otherwise, although the location was resolved,
    fails with the download error it builds from the status text. *)
Theorem downloadRepositoryArchive_retrieves_the_location
    (remote : Remote) (owner repo : string)
    (format : option ArchiveFormat) (ref : option string)
    (h h' : History) (archive : RepositoryArchive)
    (response : FetchResponse) :
  getRepositoryArchive remote owner repo format ref h
  = (h', Returned archive) ->
  fetch_ remote h' (downloadUrl archive) = inr response ->
  h' = h ++ [repos_downloadArchive owner repo (format_or_default format)
               (or_string ref "HEAD")]
  /\ downloadRepositoryArchive remote owner repo format ref h
     = (h' ++ [fetch (downloadUrl archive)],
        if ok response then Returned (arrayBuffer response)
        else Thrown (Error ("GitHub API error: Failed to download archive: "
                            ++ statusText response))).
Proof.
  intros Harchive Hfetch. split.
  - exact (getRepositoryArchive_history _ _ _ _ _ _ _ _ Harchive).
  - rewrite (downloadRepositoryArchive_fetch _ _ _ _ _ _ _ _ Harchive).
    now rewrite Hfetch.
Qed.

(** The zip archive is retrieved; the retrieval of the tarball is answered
    with a status that is not ok. *)
Lemma downloadRepositoryArchive_retrieves_the_location_witness :
  downloadRepositoryArchive Demo.remote "nnance" "chat-with-code" None None []
  = ([repos_downloadArchive "nnance" "chat-with-code" zipball "HEAD";
      fetch Demo.zip_url],
     Returned [Byte.x50; Byte.x4b])
  /\ downloadRepositoryArchive Demo.remote "nnance" "chat-with-code"
       (Some tarball) (Some "main") []
     = ([repos_downloadArchive "nnance" "chat-with-code" tarball "main";
         fetch Demo.tar_url],
        Thrown (Error "GitHub API error: Failed to download archive: Not Found")).
Proof.
  split.
  - exact (proj2 (downloadRepositoryArchive_retrieves_the_location
                    Demo.remote "nnance" "chat-with-code" None None []
                    [repos_downloadArchive "nnance" "chat-with-code"
                       zipball "HEAD"]
                    {| downloadUrl := Demo.zip_url;
                       filename := "chat-with-code-HEAD.zip";
                       archive_ref := "HEAD";
                       format := zipball |}
                    {| ok := true; statusText := "OK";
                       arrayBuffer := [Byte.x50; Byte.x4b] |}
                    eq_refl eq_refl)).
  - exact (proj2 (downloadRepositoryArchive_retrieves_the_location
                    Demo.remote "nnance" "chat-with-code"
                    (Some tarball) (Some "main") []
                    [repos_downloadArchive "nnance" "chat-with-code"
                       tarball "main"]
                    {| downloadUrl := Demo.tar_url;
                       filename := "chat-with-code-main.tar.gz";
                       archive_ref := "main";
                       format := tarball |}
                    {| ok := false; statusText := "Not Found";
                       arrayBuffer := [] |}
                    eq_refl eq_refl)).
Defined.

(** ** The claim on the code search *)

(** C8.  [searchCode] submits the query [searchQuery] builds, thirty
    results a page.  With an owner and a repository given (non-empty
    strings, which is what the test of the code asks) the submitted query
    is the caller's query followed by the repository qualifier; with an
    owner given and no repository, the caller's query followed by the
    account qualifier; with no owner, the caller's query unchanged.  In
    every case the caller's query is the beginning of the submitted one:
    the scope is only appended. *)
Theorem searchCode_appends_the_scope
    (remote : Remote) (query : string) (owner repo : option string)
    (h : History) :
  fst (searchCode remote query owner repo h)
  = h ++ [search_code (searchQuery query owner repo) 30]
  /\ (truthy owner = true -> truthy repo = true ->
      searchQuery query owner repo
      = (query ++ " repo:" ++ str owner ++ "/" ++ str repo)%string)
  /\ (truthy owner = true -> truthy repo = false ->
      searchQuery query owner repo = (query ++ " user:" ++ str owner)%string)
  /\ (truthy owner = false -> searchQuery query owner repo = query)
  /\ exists qualifiers,
       searchQuery query owner repo = (query ++ qualifiers)%string.
Proof.
  conjuncts.
  - unfold searchCode. run.
    now destruct (searchCode_ remote h (searchQuery query owner repo) 30).
  - unfold searchQuery. now intros -> ->.
  - unfold searchQuery. now intros -> ->.
  - unfold searchQuery. now intros ->.
  - unfold searchQuery.
    destruct (truthy owner), (truthy repo); cbn; eexists;
      try reflexivity; symmetry; apply append_empty.
Qed.

(** A query scoped to a repository, to an account, and not scoped. *)
Lemma searchCode_appends_the_scope_witness :
  fst (searchCode Demo.remote "handleError" (Some "nnance")
         (Some "chat-with-code") [])
  = [search_code "handleError repo:nnance/chat-with-code" 30]
  /\ searchQuery "handleError" (Some "nnance") (Some "chat-with-code")
     = "handleError repo:nnance/chat-with-code"
  /\ searchQuery "handleError" (Some "nnance") None
     = "handleError user:nnance"
  /\ searchQuery "handleError" None None = "handleError".
Proof.
  destruct (searchCode_appends_the_scope Demo.remote "handleError"
              (Some "nnance") (Some "chat-with-code") [])
    as [Hsent [Hrepo _]].
  destruct (searchCode_appends_the_scope Demo.remote "handleError"
              (Some "nnance") None []) as [_ [_ [Huser _]]].
  destruct (searchCode_appends_the_scope Demo.remote "handleError"
              None None []) as [_ [_ [_ [Hnone _]]]].
  conjuncts.
  - exact Hsent.
  - exact (Hrepo eq_refl eq_refl).
  - exact (Huser eq_refl eq_refl).
  - exact (Hnone eq_refl).
Defined.

(** ** The claim on errors thrown inside a method *)

(** C9.  Whatever a method of the facade throws to its caller is
    [handleError] of the error thrown inside it.  An error built by
    [new Error], and an error [handleError] has returned before, has no
    status, so [handleError] returns its message under the general
    prefix.  So do the path-kind mismatches, the failed retrieval of an
    archive, a failure of [getRepositoryArchive] inside
    [downloadRepositoryArchive] and every failure nested in
    [downloadDirectory]; in particular a 404 of the listing reaches the
    caller of [downloadDirectory] as the not-found message under the
    general prefix, which is not what [handleError] makes of the 404. *)
Theorem thrown_errors_pass_the_handler_again
    (remote : Remote) (base64_to_utf8 : string -> string) :
  (forall h h' e,
      facade_throws remote base64_to_utf8 h h' e ->
      exists e0, e = handleError e0)
  /\ (forall msg,
         handleError (Error msg) = Error ("GitHub API error: " ++ msg))
  /\ (forall e0,
         handleError (handleError e0)
         = Error ("GitHub API error: " ++ message (handleError e0)))
  /\ (forall owner repo path ref h l,
         getContent_ remote h owner repo path ref = inr (Listing l) ->
         getFileContent remote base64_to_utf8 owner repo path ref h
         = (h ++ [repos_getContent owner repo path ref],
            Thrown (Error ("GitHub API error: Path " ++ dquote ++ path
                           ++ dquote ++ " is a directory, not a file"))))
  /\ (forall owner repo path ref h data,
         getContent_ remote h owner repo path ref = inr (Single data) ->
         cd_type data <> file ->
         getFileContent remote base64_to_utf8 owner repo path ref h
         = (h ++ [repos_getContent owner repo path ref],
            Thrown (Error ("GitHub API error: Path " ++ dquote ++ path
                           ++ dquote ++ " is not a file"))))
  /\ (forall owner repo path ref h data,
         getContent_ remote h owner repo (path_or_root path) ref
         = inr (Single data) ->
         getRepositoryContents remote owner repo path ref h
         = (h ++ [repos_getContent owner repo (path_or_root path) ref],
            Thrown (Error ("GitHub API error: Path " ++ dquote
                           ++ path_or_root path ++ dquote
                           ++ " is a file, not a directory"))))
  /\ (forall owner repo format ref h h' archive response,
         getRepositoryArchive remote owner repo format ref h
         = (h', Returned archive) ->
         fetch_ remote h' (downloadUrl archive) = inr response ->
         ok response = false ->
         downloadRepositoryArchive remote owner repo format ref h
         = (h' ++ [fetch (downloadUrl archive)],
            Thrown (Error ("GitHub API error: Failed to download archive: "
                           ++ statusText response))))
  /\ (forall owner repo format ref h h' e,
         getRepositoryArchive remote owner repo format ref h
         = (h', Thrown e) ->
         downloadRepositoryArchive remote owner repo format ref h
         = (h', Thrown (Error ("GitHub API error: " ++ message e))))
  /\ (forall owner repo path ref fuel h h' e,
         fails_inside remote owner repo ref base64_to_utf8 fuel path h h' e ->
         downloadDirectory remote base64_to_utf8 (S fuel) owner repo path ref h
         = (h', Thrown (Error ("GitHub API error: " ++ message e))))
  /\ (forall owner repo path ref fuel h e,
         getContent_ remote h owner repo (path_or_root path) ref = inl e ->
         status e = Some 404%Z ->
         downloadDirectory remote base64_to_utf8 (S fuel) owner repo path ref h
         = (h ++ [repos_getContent owner repo (path_or_root path) ref],
            Thrown (Error ("GitHub API error: Resource not found: "
                           ++ or_string (response_message e) "Not found")))
         /\ Error ("GitHub API error: Resource not found: "
                   ++ or_string (response_message e) "Not found")
            <> handleError e).
Proof.
  conjuncts.
  - intros h h' e [owner repo H | owner repo path ref H
                  | owner repo path ref H | owner repo path ref H
                  | fuel owner repo path ref H | query options H
                  | query owner repo H | owner repo format ref H
                  | owner repo format ref H | owner repo path options H
                  | owner repo ref H | owner repo base head H];
      try (apply try_catch_thrown in H; destruct H as [e0 [_ ->]];
           now exists e0).
    destruct fuel; cbn [downloadDirectory] in H; [discriminate |].
    apply try_catch_thrown in H. destruct H as [e0 [_ ->]]. now exists e0.
  - reflexivity.
  - intros e0. apply handleError_no_status, status_handleError.
  - intros. now apply getFileContent_listing with (l := l).
  - intros. now apply getFileContent_not_file with (data := data).
  - intros. now apply getRepositoryContents_single with (data := data).
  - intros owner repo format ref h h' archive response Harchive Hfetch Hok.
    rewrite (downloadRepositoryArchive_fetch _ _ _ _ _ _ _ _ Harchive).
    now rewrite Hfetch, Hok.
  - intros. now apply downloadRepositoryArchive_rethrows.
  - intros. now apply downloadDirectory_rethrows.
  - intros owner repo path ref fuel h e Hfail H404.
    assert (Hhandled : handleError e
                       = Error ("Resource not found: "
                                ++ or_string (response_message e) "Not found")).
    { unfold handleError, status_is. now rewrite H404. }
    split.
    + rewrite (downloadDirectory_rethrows remote base64_to_utf8 owner repo ref
                 fuel path h
                 (h ++ [repos_getContent owner repo (path_or_root path) ref])
                 (handleError e)).
      * now rewrite Hhandled.
      * apply listing_fails.
        now apply (getRepositoryContents_fails remote owner repo
                     (Some (path_or_root path))).
    + rewrite Hhandled. cbn. discriminate.
Qed.

(** Each case on the demo remote; the failure two directories down
    carries the prefix twice. *)
Lemma thrown_errors_pass_the_handler_again_witness :
  (exists e0,
      Error "GitHub API error: Resource not found: Not Found" = handleError e0)
  /\ handleError (Error "Resource not found: Not Found")
     = Error "GitHub API error: Resource not found: Not Found"
  /\ handleError (handleError Demo.not_found)
     = Error "GitHub API error: Resource not found: Not Found"
  /\ getFileContent Demo.remote Base64.decode "nnance" "chat-with-code" "src"
       None []
     = ([repos_getContent "nnance" "chat-with-code" "src" None],
        Thrown (Error ("GitHub API error: Path " ++ dquote ++ "src" ++ dquote
                       ++ " is a directory, not a file")))
  /\ getFileContent Demo.remote Base64.decode "nnance" "chat-with-code"
       "latest" None []
     = ([repos_getContent "nnance" "chat-with-code" "latest" None],
        Thrown (Error ("GitHub API error: Path " ++ dquote ++ "latest"
                       ++ dquote ++ " is not a file")))
  /\ getRepositoryContents Demo.remote "nnance" "chat-with-code"
       (Some "README.md") None []
     = ([repos_getContent "nnance" "chat-with-code" "README.md" None],
        Thrown (Error ("GitHub API error: Path " ++ dquote ++ "README.md"
                       ++ dquote ++ " is a file, not a directory")))
  /\ downloadRepositoryArchive Demo.remote "nnance" "chat-with-code"
       (Some tarball) None []
     = ([repos_downloadArchive "nnance" "chat-with-code" tarball "HEAD";
         fetch Demo.tar_url],
        Thrown (Error "GitHub API error: Failed to download archive: Not Found"))
  /\ downloadRepositoryArchive (Demo.failing Demo.not_found) "nnance"
       "chat-with-code" None None []
     = ([repos_downloadArchive "nnance" "chat-with-code" zipball "HEAD"],
        Thrown (Error "GitHub API error: Resource not found: Not Found"))
  /\ downloadDirectory Demo.remote Base64.decode 2 "nnance" "chat-with-code"
       (Some "pkg") None []
     = ([repos_getContent "nnance" "chat-with-code" "pkg" None;
         repos_getContent "nnance" "chat-with-code" "docs" None;
         repos_getContent "nnance" "chat-with-code" "README.md" None;
         repos_getContent "nnance" "chat-with-code" "docs/guide.md" None],
        Thrown (Error ("GitHub API error: GitHub API error: "
                       ++ "Resource not found: Not Found")))
  /\ (downloadDirectory Demo.remote Base64.decode 1 "nnance" "chat-with-code"
        (Some "nope") None []
      = ([repos_getContent "nnance" "chat-with-code" "nope" None],
         Thrown (Error "GitHub API error: Resource not found: Not Found"))
      /\ Error "GitHub API error: Resource not found: Not Found"
         <> handleError Demo.not_found).
Proof.
  destruct (thrown_errors_pass_the_handler_again Demo.remote Base64.decode)
    as [Hall [Hnew [Htwice [Hdir [Hnotfile [Hfile [Hfetch [_ [Hnested H404]]]]]]]]].
  destruct (thrown_errors_pass_the_handler_again
              (Demo.failing Demo.not_found) Base64.decode)
    as [_ [_ [_ [_ [_ [_ [_ [Harchive _]]]]]]]].
  conjuncts.
  - apply (Hall [] [repos_getContent "nnance" "chat-with-code" "nope" None]).
    now apply (throws_downloadDirectory _ _ _ _ _ 1 "nnance" "chat-with-code"
                 (Some "nope") None).
  - exact (Hnew "Resource not found: Not Found").
  - exact (Htwice Demo.not_found).
  - exact (Hdir "nnance" "chat-with-code" "src" None [] _ eq_refl).
  - apply (Hnotfile "nnance" "chat-with-code" "latest" None [] Demo.latest
             eq_refl).
    discriminate.
  - exact (Hfile "nnance" "chat-with-code" (Some "README.md") None []
             Demo.readme eq_refl).
  - exact (Hfetch "nnance" "chat-with-code" (Some tarball) None []
             [repos_downloadArchive "nnance" "chat-with-code" tarball "HEAD"]
             {| downloadUrl := Demo.tar_url;
                filename := "chat-with-code-HEAD.tar.gz";
                archive_ref := "HEAD";
                format := tarball |}
             {| ok := false; statusText := "Not Found"; arrayBuffer := [] |}
             eq_refl eq_refl eq_refl).
  - exact (Harchive "nnance" "chat-with-code" None None []
             [repos_downloadArchive "nnance" "chat-with-code" zipball "HEAD"]
             (Error "Resource not found: Not Found") eq_refl).
  - apply (Hnested "nnance" "chat-with-code" (Some "pkg") None 1 [] _
             (Error "GitHub API error: Resource not found: Not Found")).
    apply (directory_fails Demo.remote "nnance" "chat-with-code" None
             Base64.decode 1 (Some "pkg") []
             [repos_getContent "nnance" "chat-with-code" "pkg" None]
             [Demo.item "docs" "docs" dir]
             []
             (Demo.item "docs" "docs" dir)
             []
             [repos_getContent "nnance" "chat-with-code" "pkg" None]
             []);
      reflexivity.
  - exact (proj1 (H404 "nnance" "chat-with-code" (Some "nope") None 0 []
                    Demo.not_found eq_refl eq_refl)).
  - exact (proj2 (H404 "nnance" "chat-with-code" (Some "nope") None 0 []
                    Demo.not_found eq_refl eq_refl)).
Defined.

(** ** The claim on [downloadFile] *)

(** C10.  [downloadFile] is [getFileContent]: on every remote, with every
    argument and after every history the two send the same request and
    end with the same returned file or the same thrown error. *)
Theorem downloadFile_is_getFileContent
    (remote : Remote) (base64_to_utf8 : string -> string)
    (owner repo path : string) (ref : option string) (h : History) :
  downloadFile remote base64_to_utf8 owner repo path ref h
  = getFileContent remote base64_to_utf8 owner repo path ref h.
Proof. reflexivity. Qed.

(** * Further properties of the facade *)

(** ** One request for a call *)

(** X1.  Every method that awaits the client itself sends exactly one request,
    with the parameters below, whatever the remote answers: there is no
    second attempt after a failure and no further page after a success. *)
Theorem one_request_for_a_call
    (remote : Remote) (base64_to_utf8 : string -> string) (h : History) :
  (forall owner repo,
      fst (getRepository remote owner repo h) = h ++ [repos_get owner repo])
  /\ (forall owner repo path ref,
         fst (getFileContent remote base64_to_utf8 owner repo path ref h)
         = h ++ [repos_getContent owner repo path ref])
  /\ (forall owner repo path ref,
         fst (downloadFile remote base64_to_utf8 owner repo path ref h)
         = h ++ [repos_getContent owner repo path ref])
  /\ (forall owner repo path ref,
         fst (getRepositoryContents remote owner repo path ref h)
         = h ++ [repos_getContent owner repo (path_or_root path) ref])
  /\ (forall query options,
         let o := match options with
                  | Some o => o
                  | None => mkSearchOptions None None None None
                  end in
         fst (searchRepositories remote query options h)
         = h ++ [search_repos query (or_number (so_per_page o) 30)
                   (or_number (so_page o) 1) (so_sort o) (so_order o)])
  /\ (forall query owner repo,
         fst (searchCode remote query owner repo h)
         = h ++ [search_code (searchQuery query owner repo) 30])
  /\ (forall owner repo format ref,
         fst (getRepositoryArchive remote owner repo format ref h)
         = h ++ [repos_downloadArchive owner repo (format_or_default format)
                   (or_string ref "HEAD")])
  /\ (forall owner repo path options,
         let o := match options with
                  | Some o => o
                  | None => mkPageOptions None None
                  end in
         fst (getFileHistory remote owner repo path options h)
         = h ++ [repos_listCommits owner repo path
                   (or_number (po_per_page o) 30)
                   (or_number (po_page o) 1)])
  /\ (forall owner repo ref,
         fst (getCommitDiff remote owner repo ref h)
         = h ++ [repos_getCommit owner repo ref "diff"])
  /\ (forall owner repo base head,
         fst (compareCommits remote owner repo base head h)
         = h ++ [repos_compareCommits owner repo base head "diff"]).
Proof.
  conjuncts.
  - intros owner repo. unfold getRepository. run.
    now destruct (get_ remote h owner repo).
  - intros owner repo path ref. unfold getFileContent. run.
    destruct (getContent_ remote h owner repo path ref) as [e | [data | l]];
      cbn; try reflexivity.
    now destruct (cd_type data).
  - intros owner repo path ref. unfold downloadFile, getFileContent. run.
    destruct (getContent_ remote h owner repo path ref) as [e | [data | l]];
      cbn; try reflexivity.
    now destruct (cd_type data).
  - intros owner repo path ref. unfold getRepositoryContents. run.
    now destruct (getContent_ remote h owner repo (path_or_root path) ref)
      as [e | [data | l]].
  - intros query options o. unfold searchRepositories. run. fold o.
    match goal with |- context [searchRepos_ ?r ?h ?q ?a ?b ?c ?d] =>
      destruct (searchRepos_ r h q a b c d) end; reflexivity.
  - intros query owner repo. unfold searchCode. run.
    now destruct (searchCode_ remote h (searchQuery query owner repo) 30).
  - intros owner repo format ref. unfold getRepositoryArchive. run.
    now destruct (downloadArchive_ remote h owner repo
                    (format_or_default format) (or_string ref "HEAD")).
  - intros owner repo path options o. unfold getFileHistory. run. fold o.
    match goal with |- context [listCommits_ ?r ?h ?a ?b ?c ?d ?e] =>
      destruct (listCommits_ r h a b c d e) end; reflexivity.
  - intros owner repo ref. unfold getCommitDiff. run.
    now destruct (getCommit_ remote h owner repo ref "diff").
  - intros owner repo base head. unfold compareCommits. run.
    now destruct (compareCommits_ remote h owner repo base head "diff").
Qed.

(** ** The retrieval of an archive *)

(** X2.  [downloadRepositoryArchive] sends the location request first.  When
    the remote fails it, nothing is retrieved and the failure comes out
    of two handlers; when the remote resolves it, the one request that
    follows is the plain retrieval of the resolved location. *)
Theorem downloadRepositoryArchive_retrieves_only_a_resolved_location
    (remote : Remote) (owner repo : string)
    (format : option ArchiveFormat) (ref : option string) (h : History) :
  let resolve :=
    repos_downloadArchive owner repo (format_or_default format)
      (or_string ref "HEAD") in
  match downloadArchive_ remote h owner repo (format_or_default format)
          (or_string ref "HEAD") with
  | inl e =>
      downloadRepositoryArchive remote owner repo format ref h
      = (h ++ [resolve], Thrown (handleError (handleError e)))
  | inr url =>
      fst (downloadRepositoryArchive remote owner repo format ref h)
      = h ++ [resolve; fetch url]
  end.
Proof.
  intros resolve.
  destruct (downloadArchive_ remote h owner repo (format_or_default format)
              (or_string ref "HEAD")) as [e | url] eqn:Hresolve.
  - rewrite (downloadRepositoryArchive_rethrows remote owner repo format ref h
               (h ++ [resolve]) (handleError e)).
    + now rewrite (handleError_no_status _ (status_handleError e)).
    + now apply getRepositoryArchive_fails.
  - rewrite (downloadRepositoryArchive_fetch remote owner repo format ref h
               _ _ (getRepositoryArchive_resolves remote owner repo format
                      ref h url Hresolve)).
    cbn [fst downloadUrl]. now rewrite <- app_assoc.
Qed.

(** ** The walk on any remote *)

Section WalkLaws.

Variable remote : Remote.
Variable base64_to_utf8 : string -> string.
Variables owner repo : string.
Variable ref : option string.

Lemma getFileContent_sends path h :
  fst (getFileContent remote base64_to_utf8 owner repo path ref h)
  = h ++ [repos_getContent owner repo path ref].
Proof.
  unfold getFileContent. run.
  destruct (getContent_ remote h owner repo path ref) as [e | [data | l]];
    cbn; try reflexivity.
  now destruct (cd_type data).
Qed.

Lemma getRepositoryContents_sends path h :
  fst (getRepositoryContents remote owner repo path ref h)
  = h ++ [repos_getContent owner repo (path_or_root path) ref].
Proof.
  unfold getRepositoryContents. run.
  now destruct (getContent_ remote h owner repo (path_or_root path) ref)
    as [e | [data | l]].
Qed.

(** The loop passes over links and submodules. *)
Lemma downloadItems_followed recurse contents :
  forall files h,
    downloadItems remote base64_to_utf8 recurse owner repo ref contents files h
    = downloadItems remote base64_to_utf8 recurse owner repo ref
        (filter followed contents) files h.
Proof.
  induction contents as [| item contents IH]; intros files h.
  - reflexivity.
  - cbn [filter]. unfold followed at 1.
    destruct (dc_type item) eqn:Htype; cbn [downloadItems]; rewrite Htype;
      try apply IH.
    + unfold bind.
      destruct (downloadFile remote base64_to_utf8 owner repo (dc_path item)
                  ref h) as [h1 [fc | e |]]; [apply IH | reflexivity ..].
    + unfold bind.
      destruct (recurse (dc_path item) h) as [h1 [fs | e |]];
        [apply IH | reflexivity ..].
Qed.

(** The loop sends requests of the repository only, when the recursive
    call does. *)
Lemma downloadItems_sends recurse :
  (forall p h, exists sent,
      fst (recurse p h) = h ++ sent
      /\ Forall (in_repository owner repo ref) sent) ->
  forall contents files h, exists sent,
    fst (downloadItems remote base64_to_utf8 recurse owner repo ref
           contents files h) = h ++ sent
    /\ Forall (in_repository owner repo ref) sent.
Proof.
  intros Hrec contents.
  induction contents as [| item contents IH]; intros files h.
  - exists []. split; [cbn; now rewrite app_nil_r | constructor].
  - cbn [downloadItems]. destruct (dc_type item); try apply IH.
    + unfold bind, downloadFile.
      pose proof (getFileContent_sends (dc_path item) h) as Hsent.
      destruct (getFileContent remote base64_to_utf8 owner repo
                  (dc_path item) ref h) as [h1 [fc | e |]];
        cbn [fst] in Hsent; subst h1.
      * destruct (IH (files ++ [fc])
                    (h ++ [repos_getContent owner repo (dc_path item) ref]))
          as [sent [Hfst Hall]].
        exists (repos_getContent owner repo (dc_path item) ref :: sent).
        split.
        -- rewrite Hfst. now rewrite <- app_assoc.
        -- constructor; [now exists (dc_path item) | exact Hall].
      * exists [repos_getContent owner repo (dc_path item) ref].
        split; [reflexivity |].
        constructor; [now exists (dc_path item) | constructor].
      * exists [repos_getContent owner repo (dc_path item) ref].
        split; [reflexivity |].
        constructor; [now exists (dc_path item) | constructor].
    + unfold bind.
      destruct (Hrec (dc_path item) h) as [sent1 [Hfst1 Hall1]].
      destruct (recurse (dc_path item) h) as [h1 [fs | e |]];
        cbn [fst] in Hfst1; subst h1.
      * destruct (IH (files ++ fs) (h ++ sent1)) as [sent2 [Hfst2 Hall2]].
        exists (sent1 ++ sent2). split.
        -- rewrite Hfst2. now rewrite <- app_assoc.
        -- apply Forall_app. now split.
      * now exists sent1.
      * now exists sent1.
Qed.

Lemma downloadDirectory_sends fuel :
  forall path h, exists sent,
    fst (downloadDirectory remote base64_to_utf8 fuel owner repo path ref h)
    = h ++ sent
    /\ Forall (in_repository owner repo ref) sent.
Proof.
  induction fuel as [| fuel IH]; intros path h.
  - exists []. split; [cbn; now rewrite app_nil_r | constructor].
  - cbn [downloadDirectory]. unfold try_catch, bind.
    pose proof (getRepositoryContents_sends (Some (path_or_root path)) h)
      as Hsent.
    destruct (getRepositoryContents remote owner repo
                (Some (path_or_root path)) ref h) as [h1 [contents | e |]];
      cbn [fst path_or_root] in Hsent; subst h1.
    + destruct (downloadItems_sends
                  (fun p => downloadDirectory remote base64_to_utf8 fuel
                              owner repo (Some p) ref)
                  (fun p h' => IH (Some p) h') contents []
                  (h ++ [repos_getContent owner repo (path_or_root path) ref]))
        as [sent [Hfst Hall]].
      exists (repos_getContent owner repo (path_or_root path) ref :: sent).
      split.
      * destruct (downloadItems _ _ _ _ _ _ _ _ _) as [h2 [fs | e |]];
          cbn [fst] in *; rewrite Hfst; now rewrite <- app_assoc.
      * constructor; [now exists (path_or_root path) | exact Hall].
    + exists [repos_getContent owner repo (path_or_root path) ref].
      split; [reflexivity |].
      constructor; [now exists (path_or_root path) | constructor].
    + exists [repos_getContent owner repo (path_or_root path) ref].
      split; [reflexivity |].
      constructor; [now exists (path_or_root path) | constructor].
Qed.

End WalkLaws.

(** X3.  Whatever the remote answers, [downloadDirectory] starts with the
    listing of the path it is given, and every request it sends afterwards
    asks for the content of a path of the same repository at the same
    reference: the walk never leaves the repository or the reference and
    sends no other kind of request. *)
Theorem downloadDirectory_stays_in_the_repository
    (remote : Remote) (base64_to_utf8 : string -> string)
    (fuel : nat) (owner repo : string) (path ref : option string)
    (h : History) :
  exists rest,
    fst (downloadDirectory remote base64_to_utf8 (S fuel) owner repo path
           ref h)
    = h ++ repos_getContent owner repo (path_or_root path) ref :: rest
    /\ Forall (in_repository owner repo ref) rest.
Proof.
  cbn [downloadDirectory]. unfold try_catch, bind.
  pose proof (getRepositoryContents_sends remote owner repo ref
                (Some (path_or_root path)) h) as Hsent.
  destruct (getRepositoryContents remote owner repo
              (Some (path_or_root path)) ref h) as [h1 [contents | e |]];
    cbn [fst path_or_root] in Hsent; subst h1.
  - destruct (downloadItems_sends remote base64_to_utf8 owner repo ref
                (fun p => downloadDirectory remote base64_to_utf8 fuel
                            owner repo (Some p) ref)
                (fun p h' => downloadDirectory_sends remote base64_to_utf8
                               owner repo ref fuel (Some p) h')
                contents []
                (h ++ [repos_getContent owner repo (path_or_root path) ref]))
      as [sent [Hfst Hall]].
    exists sent. split; [| exact Hall].
    destruct (downloadItems _ _ _ _ _ _ _ _ _) as [h2 [fs | e |]];
      cbn [fst] in *; rewrite Hfst; now rewrite <- app_assoc.
  - exists []. split; [reflexivity | constructor].
  - exists []. split; [reflexivity | constructor].
Qed.

(** X4.  The loop of [downloadDirectory] acts on the file and directory
    entries only: a listing and the same listing without its links and
    submodules give the same requests and the same outcome. *)
Theorem links_and_submodules_are_passed_over
    (remote : Remote) (base64_to_utf8 : string -> string)
    (recurse : string -> M (list FileContent)) (owner repo : string)
    (ref : option string) (contents : list DirectoryContent)
    (files : list FileContent) (h : History) :
  downloadItems remote base64_to_utf8 recurse owner repo ref contents files h
  = downloadItems remote base64_to_utf8 recurse owner repo ref
      (filter followed contents) files h.
Proof. apply downloadItems_followed. Qed.

(** X5.  [downloadDirectory] keeps no record of the paths it has listed: when
    the first file or directory entry a directory lists is a directory
    with the path of the listed one, the walk lists that path again and
    again and never ends, whatever the bound. *)
Theorem downloadDirectory_does_not_end_on_a_directory_listing_itself
    (remote : Remote) (base64_to_utf8 : string -> string)
    (owner repo : string) (ref : option string)
    (skipped : list DirectoryContent) (item : DirectoryContent)
    (rest : list DirectoryContent) :
  Forall (fun entry => followed entry = false) skipped ->
  dc_type item = dir ->
  (forall h, getContent_ remote h owner repo (dc_path item) ref
             = inr (Listing (skipped ++ item :: rest))) ->
  forall fuel h,
    downloadDirectory remote base64_to_utf8 fuel owner repo
      (Some (dc_path item)) ref h
    = (h ++ repeat (repos_getContent owner repo (dc_path item) ref) fuel,
       Diverged).
Proof.
  intros Hskipped Htype.
  assert (Hnone : filter followed skipped = []).
  { induction Hskipped as [| entry skipped Hentry _ IH]; cbn;
      [reflexivity | now rewrite Hentry]. }
  assert (Hitem : followed item = true)
    by (unfold followed; now rewrite Htype).
  assert (Hfilter : filter followed (skipped ++ item :: rest)
                    = item :: filter followed rest).
  { rewrite filter_app, Hnone. cbn [filter app]. now rewrite Hitem. }
  intros Hlisting.
  induction fuel as [| fuel IH]; intros h.
  - cbn. unfold diverge. now rewrite app_nil_r.
  - cbn [downloadDirectory path_or_root]. unfold try_catch, bind at 1.
    rewrite (getRepositoryContents_listing remote owner repo ref
               (Some (dc_path item)) h _ (Hlisting h)).
    rewrite downloadItems_followed, Hfilter.
    cbn [downloadItems path_or_root]. rewrite Htype. unfold bind.
    rewrite IH. cbn [repeat]. now rewrite <- app_assoc.
Qed.

(** The directory [loop] of the looping remote, under a bound of four. *)
Lemma downloadDirectory_does_not_end_on_a_directory_listing_itself_witness :
  downloadDirectory Loop.remote Base64.decode 4 "nnance" "chat-with-code"
    (Some "loop") None []
  = (repeat (repos_getContent "nnance" "chat-with-code" "loop" None) 4,
     Diverged).
Proof.
  apply (downloadDirectory_does_not_end_on_a_directory_listing_itself
           Loop.remote Base64.decode "nnance" "chat-with-code" None
           [] Loop.self [] (Forall_nil _) eq_refl (fun h => eq_refl) 4 []).
Defined.

(** Where the loop throws: at the fetch of a listed file or at the walk
    of a listed directory, the entries before it done. *)
Lemma downloadItems_failure (remote : Remote)
    (base64_to_utf8 : string -> string)
    (recurse : string -> M (list FileContent)) (owner repo : string)
    (ref : option string) (contents : list DirectoryContent) :
  forall files h h' e,
    downloadItems remote base64_to_utf8 recurse owner repo ref
      contents files h = (h', Thrown e) ->
    exists before item after h2 files2,
      contents = before ++ item :: after
      /\ downloadItems remote base64_to_utf8 recurse owner repo ref
           before files h = (h2, Returned files2)
      /\ ((dc_type item = file
           /\ downloadFile remote base64_to_utf8 owner repo (dc_path item)
                ref h2 = (h', Thrown e))
          \/ (dc_type item = dir
              /\ recurse (dc_path item) h2 = (h', Thrown e))).
Proof.
  induction contents as [| item contents IH]; intros files h h' e.
  - discriminate.
  - cbn [downloadItems]. destruct (dc_type item) eqn:Htype.
    + unfold bind.
      destruct (downloadFile remote base64_to_utf8 owner repo (dc_path item)
                  ref h) as [h1 [fc | e1 |]] eqn:Hfile.
      * intros H. apply IH in H.
        destruct H as [before [item' [after [h2 [files2 [-> [Hbefore Hat]]]]]]].
        exists (item :: before), item', after, h2, files2.
        split; [reflexivity | split; [| exact Hat]].
        cbn [downloadItems]. rewrite Htype. unfold bind. now rewrite Hfile.
      * intros H. inversion H; subst.
        exists [], item, contents, h, files.
        split; [reflexivity | split; [reflexivity |]]. left. now split.
      * discriminate.
    + unfold bind.
      destruct (recurse (dc_path item) h) as [h1 [fs | e1 |]] eqn:Hdir.
      * intros H. apply IH in H.
        destruct H as [before [item' [after [h2 [files2 [-> [Hbefore Hat]]]]]]].
        exists (item :: before), item', after, h2, files2.
        split; [reflexivity | split; [| exact Hat]].
        cbn [downloadItems]. rewrite Htype. unfold bind. now rewrite Hdir.
      * intros H. inversion H; subst.
        exists [], item, contents, h, files.
        split; [reflexivity | split; [reflexivity |]]. right. now split.
      * discriminate.
    + intros H. apply IH in H.
      destruct H as [before [item' [after [h2 [files2 [-> [Hbefore Hat]]]]]]].
      exists (item :: before), item', after, h2, files2.
      split; [reflexivity | split; [| exact Hat]].
      cbn [downloadItems]. now rewrite Htype.
    + intros H. apply IH in H.
      destruct H as [before [item' [after [h2 [files2 [-> [Hbefore Hat]]]]]]].
      exists (item :: before), item', after, h2, files2.
      split; [reflexivity | split; [| exact Hat]].
      cbn [downloadItems]. now rewrite Htype.
Qed.

(** X7.  [downloadDirectory] throws only what a nested call has thrown,
    and always under the general prefix.  When it throws [e] after [h'],
    a call nested in it (the listing of the path, the fetch of a listed
    file or the walk of a listed directory, the entries before it done)
    has thrown some [e0] after that same [h'], and [e] is the error
    without status whose message is the general prefix followed by the
    message of [e0].  So the message is never one of the four a status
    gives, whatever the remote's failure was. *)
Theorem downloadDirectory_throws_under_the_general_prefix
    (remote : Remote) (base64_to_utf8 : string -> string)
    (fuel : nat) (owner repo : string) (path ref : option string)
    (h h' : History) (e : GitHubError) :
  downloadDirectory remote base64_to_utf8 fuel owner repo path ref h
  = (h', Thrown e) ->
  exists fuel0 e0,
    fuel = S fuel0
    /\ fails_inside remote owner repo ref base64_to_utf8 fuel0 path h h' e0
    /\ e = Error ("GitHub API error: " ++ message e0)
    /\ (forall m, message e <> ("Resource not found: " ++ m)%string)
    /\ message e <> "Authentication failed. Check your GitHub token."
    /\ (forall m, message e <> ("Access forbidden: " ++ m)%string)
    /\ (forall m, message e <> ("Invalid request: " ++ m)%string).
Proof.
  destruct fuel as [| fuel]; cbn [downloadDirectory]; [discriminate |].
  intros H. apply try_catch_thrown in H. destruct H as [e0 [Hbody ->]].
  assert (Hinside : fails_inside remote owner repo ref base64_to_utf8 fuel
                      path h h' e0).
  { unfold bind in Hbody.
    destruct (getRepositoryContents remote owner repo
                (Some (path_or_root path)) ref h)
      as [h1 [contents | e1 |]] eqn:Hlist.
    - apply downloadItems_failure in Hbody.
      destruct Hbody
        as [before [item [after [h2 [files2 [Hsplit [Hbefore Hat]]]]]]].
      destruct Hat as [[Htype Hfile] | [Htype Hdir]].
      + exact (file_fails remote owner repo ref base64_to_utf8 fuel path h
                 h1 contents before item after h2 files2 h' e0
                 Hlist Hsplit Hbefore Htype Hfile).
      + exact (directory_fails remote owner repo ref base64_to_utf8 fuel path
                 h h1 contents before item after h2 files2 h' e0
                 Hlist Hsplit Hbefore Htype Hdir).
    - inversion Hbody; subst. now apply listing_fails.
    - discriminate. }
  exists fuel, e0. split; [reflexivity | split; [exact Hinside |]].
  assert (Hwrapped : handleError e0
                     = Error ("GitHub API error: " ++ message e0)).
  { apply handleError_no_status.
    destruct Hinside as [h'' e'' Hl | ? ? ? ? ? ? ? ? ? _ _ _ _ Hf
                        | ? ? ? ? ? ? ? ? ? _ _ _ _ Hd].
    - exact (getRepositoryContents_thrown _ _ _ _ _ _ _ _ Hl).
    - exact (getFileContent_thrown _ _ _ _ _ _ _ _ _ Hf).
    - exact (downloadDirectory_thrown _ _ _ _ _ _ _ _ _ _ Hd). }
  rewrite Hwrapped. conjuncts; try reflexivity; cbn; intros; discriminate.
Qed.

(** A path the remote does not find: the listing throws the not-found
    message, the walk throws it under the general prefix. *)
Lemma downloadDirectory_throws_under_the_general_prefix_witness :
  exists fuel0 e0,
    1 = S fuel0
    /\ fails_inside Demo.remote "nnance" "chat-with-code" None Base64.decode
         fuel0 (Some "nope") []
         [repos_getContent "nnance" "chat-with-code" "nope" None] e0
    /\ Error "GitHub API error: Resource not found: Not Found"
       = Error ("GitHub API error: " ++ message e0).
Proof.
  destruct (downloadDirectory_throws_under_the_general_prefix Demo.remote
              Base64.decode 1 "nnance" "chat-with-code" (Some "nope") None []
              [repos_getContent "nnance" "chat-with-code" "nope" None]
              (Error "GitHub API error: Resource not found: Not Found")
              eq_refl)
    as [fuel0 [e0 [Hfuel [Hinside [Herror _]]]]].
  exists fuel0, e0. split; [exact Hfuel | split; [exact Hinside | exact Herror]].
Defined.

(** ** What a walk returns, on any remote *)

Section WalkResult.

Variable remote : Remote.
Variable base64_to_utf8 : string -> string.
Variables owner repo : string.
Variable ref : option string.

Let fetched := fetches remote base64_to_utf8 owner repo ref.

Lemma fetches_app h h1 h2 files1 files2 :
  fetched h h1 files1 -> fetched h1 h2 files2 ->
  fetched h h2 (files1 ++ files2).
Proof.
  intros H1 H2. induction H1 as [h | h r h1 files1 _ IH
                                | h path data h1 files1 Hdata Htype _ IH].
  - exact H2.
  - apply fetches_other with (r := r). now apply IH.
  - cbn [app].
    apply fetches_file with (path := path);
      [exact Hdata | exact Htype | now apply IH].
Qed.

Lemma downloadItems_fetches recurse :
  (forall p h h' fs, recurse p h = (h', Returned fs) -> fetched h h' fs) ->
  forall contents files h h' result,
    downloadItems remote base64_to_utf8 recurse owner repo ref
      contents files h = (h', Returned result) ->
    exists more, result = files ++ more /\ fetched h h' more.
Proof.
  intros Hrec contents.
  induction contents as [| item contents IH]; intros files h h' result.
  - cbn. unfold ret. intros H. inversion H; subst.
    exists []. split; [now rewrite app_nil_r | apply fetches_nothing].
  - cbn [downloadItems]. destruct (dc_type item); try now apply IH.
    + unfold bind, downloadFile.
      destruct (getFileContent remote base64_to_utf8 owner repo
                  (dc_path item) ref h) as [h1 [fc | e1 |]] eqn:Hfile;
        try discriminate.
      intros H. apply IH in H. destruct H as [more [-> Hmore]].
      apply getFileContent_returned in Hfile.
      destruct Hfile as [data [Hdata [Htype [-> ->]]]].
      exists (fileContent_of base64_to_utf8 data :: more). split.
      * now rewrite <- app_assoc.
      * now apply fetches_file with (path := dc_path item).
    + unfold bind.
      destruct (recurse (dc_path item) h) as [h1 [fs | e1 |]] eqn:Hdir;
        try discriminate.
      intros H. apply IH in H. destruct H as [more [-> Hmore]].
      exists (fs ++ more). split.
      * now rewrite <- app_assoc.
      * apply fetches_app with (h1 := h1); [exact (Hrec _ _ _ _ Hdir) |].
        exact Hmore.
Qed.

Lemma downloadDirectory_fetches fuel :
  forall path h h' files,
    downloadDirectory remote base64_to_utf8 fuel owner repo path ref h
    = (h', Returned files) ->
    fetched h h' files.
Proof.
  induction fuel as [| fuel IH]; intros path h h' files.
  - discriminate.
  - cbn [downloadDirectory]. intros H. apply try_catch_returned in H.
    unfold bind in H.
    destruct (getRepositoryContents remote owner repo
                (Some (path_or_root path)) ref h)
      as [h1 [contents | e1 |]] eqn:Hlist; try discriminate.
    apply getRepositoryContents_returned in Hlist. destruct Hlist as [_ ->].
    apply (downloadItems_fetches
             (fun p => downloadDirectory remote base64_to_utf8 fuel owner repo
                         (Some p) ref)
             (fun p h0 h0' fs => IH (Some p) h0 h0' fs)) in H.
    destruct H as [more [-> Hmore]]. cbn [app].
    apply fetches_other
      with (r := repos_getContent owner repo
                   (path_or_root (Some (path_or_root path))) ref).
    exact Hmore.
Qed.

End WalkResult.

(** X8.  Whatever the remote answers, a walk that returns gives only
    files it has fetched itself, in the order it fetched them: from the
    history the walk starts with to the one it ends with, the requests
    sent include, in the order of the result, one content request for each
    entry, and the entry is what [getFileContent] makes of the object of
    type file the remote answered to that request when it was sent.  No
    entry stands for a directory, a link or a submodule, none comes from
    an answer to another call, and none is made up. *)
Theorem downloadDirectory_returns_only_fetched_files
    (remote : Remote) (base64_to_utf8 : string -> string)
    (fuel : nat) (owner repo : string) (path ref : option string)
    (h h' : History) (files : list FileContent) :
  downloadDirectory remote base64_to_utf8 fuel owner repo path ref h
  = (h', Returned files) ->
  fetches remote base64_to_utf8 owner repo ref h h' files.
Proof. apply downloadDirectory_fetches. Qed.

(** The three files of the demo repository, among six requests. *)
Lemma downloadDirectory_returns_only_fetched_files_witness :
  fetches Demo.remote Base64.decode "nnance" "chat-with-code" None []
    [repos_getContent "nnance" "chat-with-code" "" None;
     repos_getContent "nnance" "chat-with-code" "README.md" None;
     repos_getContent "nnance" "chat-with-code" "src" None;
     repos_getContent "nnance" "chat-with-code" "src/main.ts" None;
     repos_getContent "nnance" "chat-with-code" "src/lib" None;
     repos_getContent "nnance" "chat-with-code" "src/lib/util.ts" None]
    (map (fileContent_of Base64.decode) [Demo.readme; Demo.main; Demo.util]).
Proof.
  apply (downloadDirectory_returns_only_fetched_files Demo.remote
           Base64.decode 3 "nnance" "chat-with-code" None None []).
  reflexivity.
Defined.

(** X9.  [downloadDirectory] on the path of a file: the one request is the
    listing, the mismatch [getRepositoryContents] finds is thrown through
    its handler and through the handler of [downloadDirectory], and the
    message carries the general prefix twice. *)
Theorem downloadDirectory_of_a_file
    (remote : Remote) (base64_to_utf8 : string -> string)
    (fuel : nat) (owner repo : string) (path ref : option string)
    (h : History) (data : ContentData) :
  getContent_ remote h owner repo (path_or_root path) ref
  = inr (Single data) ->
  downloadDirectory remote base64_to_utf8 (S fuel) owner repo path ref h
  = (h ++ [repos_getContent owner repo (path_or_root path) ref],
     Thrown (Error ("GitHub API error: GitHub API error: Path "
                    ++ dquote ++ path_or_root path ++ dquote
                    ++ " is a file, not a directory"))).
Proof.
  intros Hdata.
  rewrite (downloadDirectory_rethrows remote base64_to_utf8 owner repo ref
             fuel path h
             (h ++ [repos_getContent owner repo (path_or_root path) ref])
             (Error ("GitHub API error: Path " ++ dquote ++ path_or_root path
                     ++ dquote ++ " is a file, not a directory"))).
  - reflexivity.
  - apply listing_fails.
    now apply (getRepositoryContents_single remote owner repo
                 (Some (path_or_root path)) ref h data).
Qed.

(** The README of the demo repository, walked as a directory. *)
Lemma downloadDirectory_of_a_file_witness :
  downloadDirectory Demo.remote Base64.decode 1 "nnance" "chat-with-code"
    (Some "README.md") None []
  = ([repos_getContent "nnance" "chat-with-code" "README.md" None],
     Thrown (Error ("GitHub API error: GitHub API error: Path "
                    ++ dquote ++ "README.md" ++ dquote
                    ++ " is a file, not a directory"))).
Proof.
  exact (downloadDirectory_of_a_file Demo.remote Base64.decode 0 "nnance"
           "chat-with-code" (Some "README.md") None [] Demo.readme eq_refl).
Defined.

(** ** The errors of the facade *)

Lemma handleError_surfaced (e : GitHubError) :
  status (handleError e) = None
  /\ response_message (handleError e) = None
  /\ surfaced (message (handleError e)).
Proof.
  unfold handleError, surfaced.
  destruct (status_is e 404); [cbn; eauto 6 |].
  destruct (status_is e 401); [cbn; eauto 6 |].
  destruct (status_is e 403); [cbn; eauto 7 |].
  destruct (status_is e 422); cbn; eauto 8.
Qed.

Lemma facade_throws_handled remote base64_to_utf8 h h' e :
  facade_throws remote base64_to_utf8 h h' e ->
  exists e0, e = handleError e0.
Proof.
  intros [owner repo H | owner repo path ref H
         | owner repo path ref H | owner repo path ref H
         | fuel owner repo path ref H | query options H
         | query owner repo H | owner repo format ref H
         | owner repo format ref H | owner repo path options H
         | owner repo ref H | owner repo base head H];
    try (apply try_catch_thrown in H; destruct H as [e0 [_ ->]];
         now exists e0).
  destruct fuel; cbn [downloadDirectory] in H; [discriminate |].
  apply try_catch_thrown in H. destruct H as [e0 [_ ->]]. now exists e0.
Qed.

(** X10.  An error a method of the facade throws carries neither the status nor
    the response of the remote: the caller gets a message only, and the
    message has one of the five shapes [handleError] builds. *)
Theorem facade_errors_are_messages_only
    (remote : Remote) (base64_to_utf8 : string -> string)
    (h h' : History) (e : GitHubError) :
  facade_throws remote base64_to_utf8 h h' e ->
  status e = None /\ response_message e = None /\ surfaced (message e).
Proof.
  intros H. apply facade_throws_handled in H. destruct H as [e0 ->].
  apply handleError_surfaced.
Qed.

(** The repository the demo remote does not find. *)
Lemma facade_errors_are_messages_only_witness :
  status (Error "Resource not found: Not Found") = None
  /\ response_message (Error "Resource not found: Not Found") = None
  /\ surfaced (message (Error "Resource not found: Not Found")).
Proof.
  apply (facade_errors_are_messages_only Demo.remote Base64.decode
           [] [repos_get "nnance" "chat-with-code"]).
  now apply (throws_getRepository _ _ _ _ _ "nnance" "chat-with-code").
Defined.

(** X11.  The fallbacks of [handleError]: for the statuses 404, 403 and 422 a
    response without a message, or with an empty one, gives the fixed
    phrase of the status; an error of another status, or of none, has no
    fallback, and an empty message leaves the bare prefix. *)
Theorem handleError_falls_back_on_an_empty_message (e : GitHubError) :
  response_message e = None \/ response_message e = Some "" ->
  (status e = Some 404%Z ->
   handleError e = Error "Resource not found: Not found")
  /\ (status e = Some 403%Z ->
      handleError e = Error "Access forbidden: Forbidden")
  /\ (status e = Some 422%Z ->
      handleError e = Error "Invalid request: Unprocessable entity")
  /\ (status e = None -> message e = "" ->
      handleError e = Error "GitHub API error: ").
Proof.
  intros Hmessage. unfold handleError, status_is.
  conjuncts; intros Hstatus; rewrite Hstatus; cbn.
  - now destruct Hmessage as [-> | ->].
  - now destruct Hmessage as [-> | ->].
  - now destruct Hmessage as [-> | ->].
  - now intros ->.
Qed.

(** A 422 without a response, and an error without status or message. *)
Lemma handleError_falls_back_on_an_empty_message_witness :
  handleError Demo.unprocessable
  = Error "Invalid request: Unprocessable entity"
  /\ handleError (Error "") = Error "GitHub API error: ".
Proof.
  split.
  - exact (proj1 (proj2 (proj2 (handleError_falls_back_on_an_empty_message
                                  Demo.unprocessable (or_introl eq_refl))))
             eq_refl).
  - exact (proj2 (proj2 (proj2 (handleError_falls_back_on_an_empty_message
                                  (Error "") (or_introl eq_refl))))
             eq_refl eq_refl).
Defined.

(** ** The constructor *)

(** X12.  The constructor throws exactly when the token is missing or empty.
    Its error is thrown as built: the message has none of the shapes of
    [handleError].  With a token, the client is built from that token. *)
Theorem new_GitHubTool_requires_a_token
    (Octokit : string -> Remote) (token : option string) :
  (token = None \/ token = Some "" ->
   new_GitHubTool Octokit token
   = inl (Error
            "GitHub token is required. Set GITHUB_TOKEN environment variable."))
  /\ (forall t, token = Some t -> t <> "" ->
      new_GitHubTool Octokit token = inr (Octokit t))
  /\ ~ surfaced
         "GitHub token is required. Set GITHUB_TOKEN environment variable.".
Proof.
  conjuncts.
  - now intros [-> | ->].
  - intros t -> Ht. unfold new_GitHubTool, truthy.
    destruct (String.eqb_spec t ""); [contradiction | reflexivity].
  - unfold surfaced.
    intros [[m H] | [H | [[m H] | [[m H] | [m H]]]]]; cbn in H; discriminate H.
Qed.

(** No token, an empty token, and a token. *)
Lemma new_GitHubTool_requires_a_token_witness :
  new_GitHubTool (fun _ => Demo.remote) None
  = inl (Error
           "GitHub token is required. Set GITHUB_TOKEN environment variable.")
  /\ new_GitHubTool (fun _ => Demo.remote) (Some "")
     = inl (Error
              "GitHub token is required. Set GITHUB_TOKEN environment variable.")
  /\ new_GitHubTool (fun _ => Demo.remote) (Some "ghp_demo")
     = inr Demo.remote.
Proof.
  conjuncts.
  - exact (proj1 (new_GitHubTool_requires_a_token (fun _ => Demo.remote) None)
             (or_introl eq_refl)).
  - exact (proj1 (new_GitHubTool_requires_a_token (fun _ => Demo.remote)
                    (Some "")) (or_intror eq_refl)).
  - apply (proj1 (proj2 (new_GitHubTool_requires_a_token
                           (fun _ => Demo.remote) (Some "ghp_demo")))
             "ghp_demo" eq_refl).
    discriminate.
Defined.

(** ** Paging and the history of a file *)

Lemma or_number_spec (o : option Z) (d : Z) :
  d <> 0%Z ->
  or_number o d <> 0%Z
  /\ (o = None \/ o = Some 0%Z -> or_number o d = d)
  /\ (forall n, o = Some n -> n <> 0%Z -> or_number o d = n).
Proof.
  intros Hd. unfold or_number. conjuncts.
  - destruct o as [n |]; [| exact Hd].
    destruct (Z.eqb_spec n 0); assumption.
  - now intros [-> | ->].
  - intros n -> Hn. destruct (Z.eqb_spec n 0); [contradiction | reflexivity].
Qed.

(** X13.  The page parameters of [searchRepositories] and [getFileHistory],
    for a caller that passes whole numbers: a size or a page number that
    is absent or zero is replaced by 30 and by 1, and every whole number
    other than zero is sent as the caller gave it, negative or above a
    hundred as well (nothing is clamped to the range the remote accepts);
    so the request never carries a zero.  The sort key and the order are
    sent as given, absent when absent.  (Numbers are whole numbers
    throughout this development: a value that is not one, such as NaN, is
    outside what is stated here.) *)
Theorem page_parameters_default_and_pass_through
    (remote : Remote) (h : History) :
  (forall query o,
      exists per_page page,
        fst (searchRepositories remote query (Some o) h)
        = h ++ [search_repos query per_page page (so_sort o) (so_order o)]
        /\ per_page <> 0%Z /\ page <> 0%Z
        /\ (so_per_page o = None \/ so_per_page o = Some 0%Z ->
            per_page = 30%Z)
        /\ (forall n, so_per_page o = Some n -> n <> 0%Z -> per_page = n)
        /\ (so_page o = None \/ so_page o = Some 0%Z -> page = 1%Z)
        /\ (forall n, so_page o = Some n -> n <> 0%Z -> page = n))
  /\ (forall owner repo path o,
         exists per_page page,
           fst (getFileHistory remote owner repo path (Some o) h)
           = h ++ [repos_listCommits owner repo path per_page page]
           /\ per_page <> 0%Z /\ page <> 0%Z
           /\ (po_per_page o = None \/ po_per_page o = Some 0%Z ->
               per_page = 30%Z)
           /\ (forall n, po_per_page o = Some n -> n <> 0%Z -> per_page = n)
           /\ (po_page o = None \/ po_page o = Some 0%Z -> page = 1%Z)
           /\ (forall n, po_page o = Some n -> n <> 0%Z -> page = n))
  /\ (forall query,
         searchRepositories remote query None h
         = searchRepositories remote query
             (Some (mkSearchOptions None None None None)) h)
  /\ (forall owner repo path,
         getFileHistory remote owner repo path None h
         = getFileHistory remote owner repo path
             (Some (mkPageOptions None None)) h).
Proof.
  conjuncts; try reflexivity.
  - intros query o.
    exists (or_number (so_per_page o) 30), (or_number (so_page o) 1).
    destruct (or_number_spec (so_per_page o) 30) as [H1 [H2 H3]];
      [discriminate |].
    destruct (or_number_spec (so_page o) 1) as [H4 [H5 H6]];
      [discriminate |].
    conjuncts; try assumption.
    unfold searchRepositories. run.
    match goal with |- context [searchRepos_ ?r ?h ?q ?a ?b ?c ?d] =>
      destruct (searchRepos_ r h q a b c d) end; reflexivity.
  - intros owner repo path o.
    exists (or_number (po_per_page o) 30), (or_number (po_page o) 1).
    destruct (or_number_spec (po_per_page o) 30) as [H1 [H2 H3]];
      [discriminate |].
    destruct (or_number_spec (po_page o) 1) as [H4 [H5 H6]];
      [discriminate |].
    conjuncts; try assumption.
    unfold getFileHistory. run.
    match goal with |- context [listCommits_ ?r ?h ?a ?b ?c ?d ?e] =>
      destruct (listCommits_ r h a b c d e) end; reflexivity.
Qed.

(** A page size of zero with the seventh page, and a page size of a
    thousand with a page number of zero. *)
Lemma page_parameters_default_and_pass_through_witness :
  fst (searchRepositories Demo.remote "rocq"
         (Some (mkSearchOptions (Some 0%Z) (Some 7%Z) (Some stars) None)) [])
  = [search_repos "rocq" 30 7 (Some stars) None]
  /\ fst (getFileHistory Demo.remote "nnance" "chat-with-code" "README.md"
            (Some (mkPageOptions (Some 1000%Z) (Some 0%Z))) [])
     = [repos_listCommits "nnance" "chat-with-code" "README.md" 1000 1].
Proof.
  destruct (page_parameters_default_and_pass_through Demo.remote [])
    as [Hsearch [Hhistory _]].
  split.
  - destruct (Hsearch "rocq"
                (mkSearchOptions (Some 0%Z) (Some 7%Z) (Some stars) None))
      as [per_page [page [Hsent [_ [_ [Hdefault [_ [_ Hpage]]]]]]]].
    rewrite Hsent, (Hdefault (or_intror eq_refl)), (Hpage 7%Z eq_refl);
      [reflexivity | discriminate].
  - destruct (Hhistory "nnance" "chat-with-code" "README.md"
                (mkPageOptions (Some 1000%Z) (Some 0%Z)))
      as [per_page [page [Hsent [_ [_ [_ [Hsize [Hdefault _]]]]]]]].
    rewrite Hsent, (Hsize 1000%Z eq_refl), (Hdefault (or_intror eq_refl));
      [reflexivity | discriminate].
Defined.

Lemma or_string_empty (o : option string) :
  or_string o "" = match o with Some s => s | None => "" end.
Proof.
  destruct o as [s |]; [| reflexivity]. unfold or_string.
  now destruct (String.eqb_spec s "") as [-> |].
Qed.

(** X14.  [getFileHistory] never fails on what a listed commit lacks.  When the
    remote lists commits, the method returns one [Commit] for each, in the
    remote's order, with the identifier, the message and the two links as
    sent; a commit without author (or committer) gets three empty strings,
    and a present author each field it has and an empty string for each
    field it lacks. *)
Theorem getFileHistory_fills_what_a_commit_lacks
    (remote : Remote) (owner repo path : string)
    (options : option PageOptions) (h : History) (data : list RawCommit) :
  let o := match options with
           | Some o => o
           | None => mkPageOptions None None
           end in
  let filled (raw : option RawSignature) (s : Signature) :=
    (raw = None -> s = mkSignature "" "" "")
    /\ (forall r, raw = Some r ->
        s = mkSignature
              match raw_name r with Some x => x | None => "" end
              match raw_email r with Some x => x | None => "" end
              match raw_date r with Some x => x | None => "" end) in
  listCommits_ remote h owner repo path (or_number (po_per_page o) 30)
    (or_number (po_page o) 1) = inr data ->
  exists commits,
    getFileHistory remote owner repo path options h
    = (h ++ [repos_listCommits owner repo path
               (or_number (po_per_page o) 30) (or_number (po_page o) 1)],
       Returned commits)
    /\ Forall2
         (fun raw commit =>
            commit_sha commit = raw_sha raw
            /\ commit_message commit = raw_message raw
            /\ commit_url commit = raw_url raw
            /\ commit_html_url commit = raw_html_url raw
            /\ filled (raw_author raw) (commit_author commit)
            /\ filled (raw_committer raw) (commit_committer commit))
         data commits.
Proof.
  intros o filled Hdata.
  assert (Hfilled : forall raw, filled raw (signature_of raw)).
  { intros raw. split.
    - now intros ->.
    - intros r ->. unfold signature_of. now rewrite !or_string_empty. }
  eexists. split.
  - unfold getFileHistory. run. fold o. rewrite Hdata. reflexivity.
  - clear Hdata. induction data as [| raw data IH]; constructor.
    + cbn. conjuncts; try reflexivity; apply Hfilled.
    + exact IH.
Qed.

(** A commit without author, whose committer has no email. *)
Lemma getFileHistory_fills_what_a_commit_lacks_witness :
  exists commits,
    getFileHistory Loop.remote "nnance" "chat-with-code" "README.md" None []
    = ([repos_listCommits "nnance" "chat-with-code" "README.md" 30 1],
       Returned commits)
    /\ map commit_author commits = [mkSignature "" "" ""]
    /\ map commit_committer commits
       = [mkSignature "GitHub" "" "2025-06-01T10:00:00Z"].
Proof.
  destruct (getFileHistory_fills_what_a_commit_lacks Loop.remote "nnance"
              "chat-with-code" "README.md" None [] _ eq_refl)
    as [commits [Hrun Hall]].
  exists commits. split; [exact Hrun |].
  inversion Hall as [| raw commit data' commits' Hcommit Hrest]; subst.
  inversion Hrest; subst.
  destruct Hcommit as [_ [_ [_ [_ [[Hauthor _] [_ Hcommitter]]]]]].
  cbn. rewrite (Hauthor eq_refl), (Hcommitter _ eq_refl). split; reflexivity.
Defined.

(** ** The log of the archive tools *)

(** X15.  Called without a format, each archive tool of the agent logs the line
    it logs for a tarball, and sends the requests and ends the way it does
    for a zipball: the log names a format the facade does not ask for. *)
Theorem archive_tools_log_one_format_and_request_the_other
    (githubTool : Remote) (owner repo : string) (ref : option string)
    (log : list string) (h : History) :
  (fst (fst (execute_getRepositoryArchive githubTool owner repo None ref
               log h))
   = fst (fst (execute_getRepositoryArchive githubTool owner repo
                 (Some tarball) ref log h))
   /\ (snd (fst (execute_getRepositoryArchive githubTool owner repo None ref
                   log h)),
       snd (execute_getRepositoryArchive githubTool owner repo None ref
              log h))
      = getRepositoryArchive githubTool owner repo (Some zipball) ref h)
  /\ (fst (fst (execute_downloadRepositoryArchive githubTool owner repo None
                  ref log h))
      = fst (fst (execute_downloadRepositoryArchive githubTool owner repo
                    (Some tarball) ref log h))
      /\ (snd (fst (execute_downloadRepositoryArchive githubTool owner repo
                      None ref log h)),
          snd (execute_downloadRepositoryArchive githubTool owner repo None
                 ref log h))
         = downloadRepositoryArchive githubTool owner repo (Some zipball)
             ref h)
  /\ fst (getRepositoryArchive githubTool owner repo None ref h)
     = h ++ [repos_downloadArchive owner repo zipball (or_string ref "HEAD")]
  /\ fst (fst (execute_getRepositoryArchive githubTool owner repo None ref
                 log h))
     = log ++ [("Calling getRepositoryArchive: " ++ owner ++ "/" ++ repo
                ++ " (tarball)"
                ++ (if truthy ref then " (ref: " ++ str ref ++ ")"
                    else ""))%string].
Proof.
  unfold execute_getRepositoryArchive, execute_downloadRepositoryArchive.
  conjuncts.
  - now destruct (getRepositoryArchive githubTool owner repo None ref h),
      (getRepositoryArchive githubTool owner repo (Some tarball) ref h).
  - change (getRepositoryArchive githubTool owner repo (Some zipball) ref h)
      with (getRepositoryArchive githubTool owner repo None ref h).
    now destruct (getRepositoryArchive githubTool owner repo None ref h).
  - now destruct (downloadRepositoryArchive githubTool owner repo None ref h),
      (downloadRepositoryArchive githubTool owner repo (Some tarball) ref h).
  - change (downloadRepositoryArchive githubTool owner repo (Some zipball)
              ref h)
      with (downloadRepositoryArchive githubTool owner repo None ref h).
    now destruct (downloadRepositoryArchive githubTool owner repo None ref h).
  - unfold getRepositoryArchive. run.
    now destruct (downloadArchive_ githubTool h owner repo zipball
                    (or_string ref "HEAD")).
  - now destruct (getRepositoryArchive githubTool owner repo None ref h).
Qed.

(** ** No path is asked for twice *)

Lemma NoDup_map_injective {A B : Type} (f : A -> B) (l : list A) :
  (forall x y, f x = f y -> x = y) -> NoDup l -> NoDup (map f l).
Proof.
  intros Hf Hl. induction Hl as [| x l Hx _ IH]; cbn; constructor.
  - rewrite in_map_iff. intros [y [Hy Hin]]. apply Hf in Hy. now subst.
  - exact IH.
Qed.

Lemma requests_paths (owner repo : string) (ref : option string) (t : Tree) :
  requests owner repo ref t
  = map (fun p => repos_getContent owner repo p ref) (paths t).
Proof.
  induction t as [item data | item children IH | item] using Tree_forall_ind;
    cbn; try reflexivity.
  f_equal. induction IH as [| c cs Hc _ IHcs]; cbn; [reflexivity |].
  now rewrite map_app, Hc, IHcs.
Qed.

Lemma forest_requests_paths (owner repo : string) (ref : option string)
    (children : list Tree) :
  flat_map (requests owner repo ref) children
  = map (fun p => repos_getContent owner repo p ref)
      (flat_map paths children).
Proof.
  induction children as [| c cs IH]; cbn; [reflexivity |].
  now rewrite map_app, requests_paths, IH.
Qed.

(** X16.  On a tree the remote holds, the walk sends one request for the given
    path and one for each file and each directory of the tree, none for a
    link or a submodule; when these paths are pairwise distinct, no
    request is sent twice. *)
Theorem downloadDirectory_asks_for_each_path_once
    (remote : Remote) (base64_to_utf8 : string -> string)
    (owner repo : string) (path ref : option string)
    (children : list Tree) (fuel : nat) (h : History) :
  serves_at remote owner repo ref (path_or_root path) children ->
  list_max (map height children) < fuel ->
  NoDup (path_or_root path :: flat_map paths children) ->
  exists sent,
    fst (downloadDirectory remote base64_to_utf8 fuel owner repo path ref h)
    = h ++ sent
    /\ sent = map (fun p => repos_getContent owner repo p ref)
                (path_or_root path :: flat_map paths children)
    /\ NoDup sent.
Proof.
  intros Hserved Hfuel Hpaths.
  eexists. conjuncts.
  - rewrite (downloadDirectory_walk remote base64_to_utf8 owner repo ref fuel
               path children h Hserved Hfuel).
    cbn [fst]. reflexivity.
  - cbn [map]. now rewrite forest_requests_paths.
  - rewrite forest_requests_paths.
    change (NoDup (map (fun p => repos_getContent owner repo p ref)
                     (path_or_root path :: flat_map paths children))).
    apply NoDup_map_injective; [| exact Hpaths].
    intros p q Hpq. now inversion Hpq.
Qed.

(** The demo repository: six paths, six requests. *)
Lemma downloadDirectory_asks_for_each_path_once_witness :
  exists sent,
    fst (downloadDirectory Demo.remote Base64.decode 3 "nnance"
           "chat-with-code" None None []) = [] ++ sent
    /\ sent = map (fun p => repos_getContent "nnance" "chat-with-code" p None)
                [""; "README.md"; "src"; "src/main.ts"; "src/lib";
                 "src/lib/util.ts"]
    /\ NoDup sent.
Proof.
  apply (downloadDirectory_asks_for_each_path_once Demo.remote Base64.decode
           "nnance" "chat-with-code" None None Demo.root 3 []).
  - split; [intros h; reflexivity |].
    repeat first
      [ apply Forall_nil
      | apply Forall_cons
      | apply serves_file; [reflexivity | intros h; reflexivity | reflexivity]
      | apply serves_dir; [reflexivity | intros h; reflexivity |]
      | apply serves_other; discriminate ].
  - cbn. lia.
  - cbn. repeat constructor; cbn; intuition discriminate.
Defined.
